(** * OriginRoleToRBACRoleController

    A shallow embedding of
    [pkg/authorization/controller/authorizationsync/origin_to_rbac_role_controller.go]:
    the reconcile function [syncRole] and the three callbacks returned by
    [policyEventHandler], together with the small part of the Kubernetes
    object model they touch.

    Conventions.
    - A Go [error] value is an [option error]; [None] is [nil].
    - A call returning [( *T, error)] is a [T + error].
    - The RBAC write client is an interface ([rbacclient.RolesGetter]); it is
      a type class over the state of whatever implements it, and the calls
      made through it are observed with a recording implementation, the way
      the fake clientset records its actions.
    - The origin lister reads the indexer the event handlers write to; the
      sharing is explicit: the lister is a function of the indexer's current
      contents. *)

From stdpp Require Import base strings list gmap.
From Stdlib Require Import ZArith Ascii String.

Local Open Scope string_scope.

(** ** Errors ([k8s.io/apimachinery/pkg/api/errors]) *)

Module apierrors.

(** The [metav1.StatusReason] values the controller distinguishes. *)
Inductive StatusReason :=
| StatusReasonNotFound
| StatusReasonInvalid
| StatusReasonOther (reason : string).

(** An error is either an API status error carrying a reason, or any other
    Go error (an [fmt.Errorf], a transport failure, ...). *)
Inductive error :=
| StatusError (reason : StatusReason) (message : string)
| PlainError (message : string).

(** [IsNotFound] and [IsInvalid] take an [error] interface value, which may
    be nil; nil has no reason. *)
Definition IsNotFound (err : option error) : bool :=
  match err with
  | Some (StatusError StatusReasonNotFound _) => true
  | _ => false
  end.

Definition IsInvalid (err : option error) : bool :=
  match err with
  | Some (StatusError StatusReasonInvalid _) => true
  | _ => false
  end.

Definition NewNotFound (name : string) : error :=
  StatusError StatusReasonNotFound name.

End apierrors.

Export apierrors.

#[global] Instance StatusReason_eq_dec : EqDecision StatusReason.
Proof. solve_decision. Defined.
#[global] Instance error_eq_dec : EqDecision error.
Proof. solve_decision. Defined.

(** The [error] half of a [( *T, error)] result. *)
Definition errOf {A : Type} (r : A + error) : option error :=
  match r with
  | inl _ => None
  | inr e => Some e
  end.

(** ** Object model *)

(** The part of [metav1.ObjectMeta] the controller reads or writes, plus the
    naming and labelling fields that take part in comparisons. *)
Record ObjectMeta := mkObjectMeta {
  Name : string;
  Namespace : string;
  SelfLink : string;
  UID : string;
  ResourceVersion : string;
  CreationTimestamp : Z;
  Labels : list (string * string);
  Annotations : list (string * string)
}.

#[global] Instance ObjectMeta_eq_dec : EqDecision ObjectMeta.
Proof. solve_decision. Defined.

Module rbac.

Record PolicyRule := mkPolicyRule {
  Verbs : list string;
  APIGroups : list string;
  Resources : list string;
  ResourceNames : list string;
  NonResourceURLs : list string
}.

Record Role := mkRole {
  Meta : ObjectMeta;
  Rules : list PolicyRule
}.

End rbac.

#[global] Instance rbac_PolicyRule_eq_dec : EqDecision rbac.PolicyRule.
Proof. solve_decision. Defined.
#[global] Instance rbac_Role_eq_dec : EqDecision rbac.Role.
Proof. solve_decision. Defined.

Module authorizationapi.

(** An origin rule; its shape differs from the RBAC one (attribute
    restrictions are dropped by the conversion). *)
Record PolicyRule := mkPolicyRule {
  Verbs : list string;
  APIGroups : list string;
  Resources : list string;
  ResourceNames : list string;
  NonResourceURLs : list string;
  AttributeRestrictions : option string
}.

Record Role := mkRole {
  Meta : ObjectMeta;
  Rules : list PolicyRule
}.

(** The container: a policy document holding the roles of a namespace.
    [Roles] is a map from role name to role in the API; the list is the
    order in which one [range] over it visits the roles. *)
Record Policy := mkPolicy {
  PolicyMeta : ObjectMeta;
  Roles : list Role
}.

End authorizationapi.

#[global] Instance origin_PolicyRule_eq_dec : EqDecision authorizationapi.PolicyRule.
Proof. solve_decision. Defined.
#[global] Instance origin_Role_eq_dec : EqDecision authorizationapi.Role.
Proof. solve_decision. Defined.

(** Field assignments on the embedded [ObjectMeta] of an RBAC role. *)
Definition withMeta (f : ObjectMeta -> ObjectMeta) (r : rbac.Role) : rbac.Role :=
  rbac.mkRole (f (rbac.Meta r)) (rbac.Rules r).

Definition setResourceVersion (v : string) (m : ObjectMeta) : ObjectMeta :=
  mkObjectMeta (Name m) (Namespace m) (SelfLink m) (UID m) v
               (CreationTimestamp m) (Labels m) (Annotations m).

Definition setSelfLink (v : string) (m : ObjectMeta) : ObjectMeta :=
  mkObjectMeta (Name m) (Namespace m) v (UID m) (ResourceVersion m)
               (CreationTimestamp m) (Labels m) (Annotations m).

Definition setUID (v : string) (m : ObjectMeta) : ObjectMeta :=
  mkObjectMeta (Name m) (Namespace m) (SelfLink m) v (ResourceVersion m)
               (CreationTimestamp m) (Labels m) (Annotations m).

Definition setCreationTimestamp (v : Z) (m : ObjectMeta) : ObjectMeta :=
  mkObjectMeta (Name m) (Namespace m) (SelfLink m) (UID m) (ResourceVersion m)
               v (Labels m) (Annotations m).

(** [kapi.Semantic.DeepEqual] on two roles.  Every field of the model is a
    string, an integer or a slice of those, on which semantic equality is
    structural equality (a nil and an empty slice are the same list). *)
Definition DeepEqual (a b : rbac.Role) : bool := bool_decide (a = b).

(** ** Keys ([k8s.io/client-go/tools/cache]) *)

(** [strings.Split(s, "/")]: the pieces of [s] between slashes; a string
    without a slash, the empty one included, is a single piece. *)
Fixpoint Split (s : string) : list string :=
  match s with
  | EmptyString => [EmptyString]
  | String c rest =>
      if Ascii.eqb c "/"%char then EmptyString :: Split rest
      else match Split rest with
           | piece :: pieces => String c piece :: pieces
           | [] => [String c EmptyString]
           end
  end.

(** Modelled from the spec: [cache.SplitMetaNamespaceKey] is library code
    outside this file.  A Key is "namespace/name", or "name" for an entity
    without a namespace; anything with more slashes does not parse. *)
Definition SplitMetaNamespaceKey (key : string) : (string * string) + error :=
  match Split key with
  | [name] => inl ("", name)
  | [namespace; name] => inl (namespace, name)
  | _ => inr (PlainError ("unexpected key format: " ++ key))
  end.

(** Modelled from the spec: [cache.MetaNamespaceKeyFunc], the key function
    the origin indexer is built with: "namespace/name", or "name" when the
    namespace is empty. *)
Definition MetaNamespaceKeyFunc (m : ObjectMeta) : string :=
  if bool_decide (Namespace m = "") then Name m
  else Namespace m ++ "/" ++ Name m.

(** Modelled from the spec: [controller.KeyFunc] on a role.  It can only fail
    on an object without metadata, which a role always has; the result keeps
    the error half because the handlers test it. *)
Definition KeyFunc (originObj : authorizationapi.Role) : string + error :=
  inl (MetaNamespaceKeyFunc (authorizationapi.Meta originObj)).

(** ** The indexed cache of origin roles *)

(** [cache.Indexer] contents: last write wins per key. *)
Abbreviation Indexer := (gmap string authorizationapi.Role).

(** Modelled from the spec: [Indexer.Add] upserts under the object's key. *)
Definition Indexer_Add (originObj : authorizationapi.Role) (ix : Indexer) : Indexer :=
  <[MetaNamespaceKeyFunc (authorizationapi.Meta originObj) := originObj]> ix.

(** Modelled from the spec: the generated [originlister.NewRoleLister]; its
    [Roles(namespace).Get(name)] looks "namespace/name" up in the indexer
    and answers NotFound when the key is absent. *)
Definition NewRoleLister (ix : Indexer) (namespace name : string)
  : authorizationapi.Role + error :=
  match ix !! (namespace ++ "/" ++ name) with
  | Some role => inl role
  | None => inr (NewNotFound name)
  end.

(** Modelled from the spec: [workqueue.Add]; a key already pending is not
    added a second time. *)
Definition queue_Add (key : string) (q : list string) : list string :=
  if bool_decide (key ∈ q) then q else q ++ [key].

(** ** The RBAC write client *)

(** What [rbacClient.Roles(namespace)] offers, over the state [S] of the
    implementation behind the interface. *)
Class RolesGetter (S : Type) := {
  Create : string -> rbac.Role -> S -> (rbac.Role + error) * S;
  Update : string -> rbac.Role -> S -> (rbac.Role + error) * S;
  Delete : string -> string -> S -> option error * S
}.

(** One write issued through the client. *)
Inductive Action :=
| CreateAction (namespace : string) (obj : rbac.Role)
| UpdateAction (namespace : string) (obj : rbac.Role)
| DeleteAction (namespace name : string).

#[global] Instance Action_eq_dec : EqDecision Action.
Proof. solve_decision. Defined.

(** A client that forwards every call to [backend] and appends it to
    [actions]. *)
Record Recorder (S : Type) := mkRecorder {
  backend : S;
  actions : list Action
}.

Arguments mkRecorder {S} _ _.
Arguments backend {S} _.
Arguments actions {S} _.

Definition record {S A : Type} (a : Action) (call : S -> A * S)
  (st : Recorder S) : A * Recorder S :=
  let '(res, s') := call (backend st) in
  (res, mkRecorder s' (actions st ++ [a])).

#[global] Instance recording (S : Type) `{RolesGetter S} : RolesGetter (Recorder S) := {
  Create ns obj := record (CreateAction ns obj) (Create ns obj);
  Update ns obj := record (UpdateAction ns obj) (Update ns obj);
  Delete ns name := record (DeleteAction ns name) (Delete ns name)
}.

(** A recorder that has seen nothing yet. *)
Definition fresh {S : Type} (s : S) : Recorder S := mkRecorder s [].

(** ** Sequencing calls on the client *)

(** A computation that may call the client: it threads the client's state. *)
Definition Call (S A : Type) : Type := S -> A * S.

Definition ret {S A : Type} (a : A) : Call S A := fun s => (a, s).

Definition bind {S A B : Type} (m : Call S A) (k : A -> Call S B) : Call S B :=
  fun s => let '(a, s') := m s in k a s'.

Declare Scope call_scope.
Delimit Scope call_scope with call.
Notation "x <- m ;; k" := (bind m (fun x => k))
  (at level 100, m at next level, right associativity) : call_scope.

(** ** The controller *)

(** The fields of [OriginRoleToRBACRoleController] the code of this file
    reads or writes.  [rbacLister] is the informer-backed lister of RBAC
    roles as it answers at the time of the call.  [originLister] reads
    [originIndexer]: it is given the indexer's current contents.  [queue]
    holds the pending keys of the embedded generic controller.  The write
    client [rbacClient] is the [RolesGetter] instance in scope. *)
Record OriginRoleToRBACRoleController := mkController {
  rbacLister : string -> string -> rbac.Role + error;
  originIndexer : Indexer;
  originLister : Indexer -> string -> string -> authorizationapi.Role + error;
  queue : list string
}.

Section Sync.

(** [authorizationapi.Convert_api_Role_To_rbac_Role], generated conversion
    code outside this file: it fills a fresh RBAC role or fails. *)
Variable Convert_api_Role_To_rbac_Role : authorizationapi.Role -> rbac.Role + error.

(** The package's [cloner], as far as [rbac.DeepCopy_rbac_Role] depends on
    it: whether copying a given role fails. *)
Variable cloner : rbac.Role -> option error.

(** [rbac.DeepCopy_rbac_Role(in, out, cloner)]: a copy that shares nothing
    with [in]; on values, the role itself. *)
Definition DeepCopy_rbac_Role (convertedRole : rbac.Role) : rbac.Role + error :=
  match cloner convertedRole with
  | Some err => inr err
  | None => inl convertedRole
  end.

(** Lines 101-105: the four identity fields of the candidate are overwritten
    with those of the existing RBAC role, in the order of the source. *)
Definition stompIdentity (equivalentRole rbacRole : rbac.Role) : rbac.Role :=
  let equivalentRole := withMeta (setSelfLink (SelfLink (rbac.Meta rbacRole))) equivalentRole in
  let equivalentRole := withMeta (setUID (UID (rbac.Meta rbacRole))) equivalentRole in
  let equivalentRole := withMeta (setResourceVersion (ResourceVersion (rbac.Meta rbacRole))) equivalentRole in
  withMeta (setCreationTimestamp (CreationTimestamp (rbac.Meta rbacRole))) equivalentRole.

Context {S : Type} `{client : RolesGetter S}.

Local Open Scope call_scope.

(** [syncRole], lines 58-120.  The two branches marked "not reached" stand
    for a nil role pointer next to a nil error, which a lister never
    returns: every non-nil lookup error has returned before them. *)
Definition syncRole (c : OriginRoleToRBACRoleController) (key : string)
  : Call S (option error) :=
  match SplitMetaNamespaceKey key with
  | inr err => ret (Some err)
  | inl (namespace, name) =>
    let rbacRes := rbacLister c namespace name in
    let rbacErr := errOf rbacRes in
    if negb (IsNotFound rbacErr) && bool_decide (rbacErr ≠ None) then ret rbacErr else
    let originRes := originLister c (originIndexer c) namespace name in
    let originErr := errOf originRes in
    if negb (IsNotFound originErr) && bool_decide (originErr ≠ None) then ret originErr else
    (* if neither role exists, return *)
    if IsNotFound rbacErr && IsNotFound originErr then ret None else
    (* if the origin role doesn't exist, just delete the rbac role *)
    if IsNotFound originErr then Delete namespace name else
    match originRes with
    | inr err => ret (Some err) (* not reached *)
    | inl originRole =>
      (* convert the origin role to an rbac role and compare the results *)
      match Convert_api_Role_To_rbac_Role originRole with
      | inr err => ret (Some err)
      | inl convertedRole =>
        match DeepCopy_rbac_Role convertedRole with
        | inr err => ret (Some err)
        | inl equivalentRole =>
          (* if we're missing the rbacRole, create it *)
          if IsNotFound rbacErr then
            let equivalentRole := withMeta (setResourceVersion "") equivalentRole in
            res <- Create namespace equivalentRole ;;
            ret (errOf res)
          else
          match rbacRes with
          | inr err => ret (Some err) (* not reached *)
          | inl rbacRole =>
            let equivalentRole := stompIdentity equivalentRole rbacRole in
            (* if they're equal, we have no work to do *)
            if DeepEqual equivalentRole rbacRole then ret None else
            res <- Update namespace equivalentRole ;;
            let err := errOf res in
            if IsInvalid err then
              _ <- Delete namespace name ;;
              ret err
            else ret err
          end
        end
      end
    end
  end.

End Sync.

(** ** The event handlers *)

(** An [interface{}] handed to a callback by the informer. *)
#[warnings="-register-all"]
Inductive Object :=
| PolicyObj (p : authorizationapi.Policy)
| DeletedFinalStateUnknownObj (Key : string) (Obj : option Object)
| OtherObj (kind : string).

(** What the callbacks act on: the controller (its indexer and queue) and
    the errors given to [utilruntime.HandleError] so far. *)
Record Ingest := mkIngest {
  ctl : OriginRoleToRBACRoleController;
  handled : list error
}.

(** A callback either returns or panics; both leave a state behind. *)
Inductive Outcome :=
| Returned (st : Ingest)
| Panicked (st : Ingest).

Definition HandleError (err : error) (st : Ingest) : Ingest :=
  mkIngest (ctl st) (handled st ++ [err]).

Definition withIndexer (f : Indexer -> Indexer) (c : OriginRoleToRBACRoleController)
  : OriginRoleToRBACRoleController :=
  mkController (rbacLister c) (f (originIndexer c)) (originLister c) (queue c).

Definition withQueue (f : list string -> list string) (c : OriginRoleToRBACRoleController)
  : OriginRoleToRBACRoleController :=
  mkController (rbacLister c) (originIndexer c) (originLister c) (f (queue c)).

(** The body of the [for _, originObj := range originContainerObj.Roles]
    loop, which is the same text in [AddFunc], [UpdateFunc] and
    [DeleteFunc]: add to the indexer, compute the key, enqueue it. *)
Definition ingestRole (st : Ingest) (originObj : authorizationapi.Role) : Ingest :=
  let st := mkIngest (withIndexer (Indexer_Add originObj) (ctl st)) (handled st) in
  match KeyFunc originObj with
  | inr err => HandleError err st
  | inl key => mkIngest (withQueue (queue_Add key) (ctl st)) (handled st)
  end.

Definition ingestRoles (originContainerObj : authorizationapi.Policy) (st : Ingest) : Ingest :=
  foldl ingestRole st (authorizationapi.Roles originContainerObj).

(** [AddFunc], lines 124-135.  The unchecked type assertion panics on
    anything but a policy. *)
Definition AddFunc (obj : Object) (st : Ingest) : Outcome :=
  match obj with
  | PolicyObj originContainerObj => Returned (ingestRoles originContainerObj st)
  | _ => Panicked st
  end.

(** [UpdateFunc], lines 136-147.  Only [cur] is looked at. *)
Definition UpdateFunc (old cur : Object) (st : Ingest) : Outcome :=
  match cur with
  | PolicyObj originContainerObj => Returned (ingestRoles originContainerObj st)
  | _ => Panicked st
  end.

Definition notATombstone : error :=
  PlainError "Couldn't get object from tombstone".

Definition notAPolicy : error :=
  PlainError "Tombstone contained object that is not a runtime.Object".

(** [DeleteFunc], lines 148-170.  When [obj] is not a tombstone the error is
    reported and execution goes on with the zero tombstone, whose [Obj] is
    nil; when the tombstone's [Obj] is not a policy the error is reported
    and execution goes on with a nil [originContainerObj], whose [Roles]
    cannot be read. *)
Definition DeleteFunc (obj : Object) (st : Ingest) : Outcome :=
  match obj with
  | PolicyObj originContainerObj => Returned (ingestRoles originContainerObj st)
  | _ =>
    let '(tombstoneObj, st) :=
      match obj with
      | DeletedFinalStateUnknownObj _ inner => (inner, st)
      | _ => (None, HandleError notATombstone st)
      end in
    match tombstoneObj with
    | Some (PolicyObj originContainerObj) => Returned (ingestRoles originContainerObj st)
    | _ => Panicked (HandleError notAPolicy st)
    end
  end.

(** [NewOriginToRBACRoleController], lines 34-56: an empty indexer, the
    lister built over it, an empty queue. *)
Definition NewOriginToRBACRoleController (rbacRoleLister : string -> string -> rbac.Role + error)
  : OriginRoleToRBACRoleController :=
  mkController rbacRoleLister ∅ NewRoleLister [].

(** ** Fixtures

    A concrete conversion, a concrete client and a few objects, used to run
    the definitions above on explicit inputs. *)

Module Fixtures.

(** A client whose answers are scripted: each call consumes the next entry
    of the script and fails with it if it is an error; an exhausted script
    means success. *)
Definition scriptedWrite (obj : rbac.Role) (script : list (option error))
  : (rbac.Role + error) * list (option error) :=
  match script with
  | Some err :: rest => (inr err, rest)
  | None :: rest => (inl obj, rest)
  | [] => (inl obj, [])
  end.

Definition scriptedDelete (script : list (option error))
  : option error * list (option error) :=
  match script with
  | r :: rest => (r, rest)
  | [] => (None, [])
  end.

#[global] Instance scripted : RolesGetter (list (option error)) := {
  Create _ obj := scriptedWrite obj;
  Update _ obj := scriptedWrite obj;
  Delete _ _ := scriptedDelete
}.

Definition convertRule (r : authorizationapi.PolicyRule) : rbac.PolicyRule :=
  rbac.mkPolicyRule (authorizationapi.Verbs r) (authorizationapi.APIGroups r)
    (authorizationapi.Resources r) (authorizationapi.ResourceNames r)
    (authorizationapi.NonResourceURLs r).

(** A conversion in the manner of the generated one: the object metadata is
    carried over, the rules are converted one by one, and a rule with
    attribute restrictions has no RBAC counterpart. *)
Definition convert (o : authorizationapi.Role) : rbac.Role + error :=
  if forallb (fun r => bool_decide (authorizationapi.AttributeRestrictions r = None))
             (authorizationapi.Rules o)
  then inl (rbac.mkRole (authorizationapi.Meta o) (map convertRule (authorizationapi.Rules o)))
  else inr (PlainError "cannot convert attribute restrictions").

Definition noCloneError (_ : rbac.Role) : option error := None.

Definition failingCloner (_ : rbac.Role) : option error :=
  Some (PlainError "cannot copy").

Definition meta (ns name uid rv : string) (created : Z) : ObjectMeta :=
  mkObjectMeta name ns "" uid rv created [] [].

Definition R1 : authorizationapi.PolicyRule :=
  authorizationapi.mkPolicyRule ["get"] [""] ["pods"] [] [] None.

Definition R2 : authorizationapi.PolicyRule :=
  authorizationapi.mkPolicyRule ["list"] [""] ["pods"] [] [] None.

Definition Rrestricted : authorizationapi.PolicyRule :=
  authorizationapi.mkPolicyRule ["get"] [""] ["pods"] [] [] (Some "restricted").

(** The origin role a/r1 with the given rules. *)
Definition originR1 (rules : list authorizationapi.PolicyRule) : authorizationapi.Role :=
  authorizationapi.mkRole (meta "a" "r1" "origin-uid" "3" 100) rules.

(** The RBAC role a/r1 as the derived store holds it. *)
Definition rbacR1 (rules : list authorizationapi.PolicyRule) : rbac.Role :=
  rbac.mkRole
    (mkObjectMeta "r1" "a" "/apis/rbac/namespaces/a/roles/r1" "rbac-uid" "5" 200 [] [])
    (map convertRule rules).

Definition policyA (roles : list authorizationapi.Role) : authorizationapi.Policy :=
  authorizationapi.mkPolicy (meta "a" "default" "policy-uid" "7" 50) roles.

(** Listers answering for a/r1 only. *)
Definition onlyR1 {A : Type} (role : A) (namespace name : string) : A + error :=
  if bool_decide (namespace = "a" ∧ name = "r1") then inl role
  else inr (NewNotFound name).

Definition nothing {A : Type} (namespace name : string) : A + error :=
  inr (NewNotFound name).

Definition failing {A : Type} (namespace name : string) : A + error :=
  inr (PlainError "cache unavailable").

(** A controller whose origin lister is the one over its indexer, holding
    the given origin roles. *)
Definition controllerWith (rbacRoleLister : string -> string -> rbac.Role + error)
  (roles : list authorizationapi.Role) : OriginRoleToRBACRoleController :=
  withIndexer (fun ix => foldr Indexer_Add ix roles)
    (NewOriginToRBACRoleController rbacRoleLister).

Definition invalid : error := StatusError StatusReasonInvalid "field is immutable".
Definition notFound : error := NewNotFound "r1".
Definition unavailable : error := StatusError (StatusReasonOther "ServiceUnavailable") "try later".


(** The situations of the specification's scenarios, for the key "a/r1":
    derived absent (A), both sides equal (B), source absent (C), source
    changed to two rules (D, E), and a source that does not convert. *)
Definition missing : OriginRoleToRBACRoleController :=
  controllerWith nothing [originR1 [R1]].

Definition converged : OriginRoleToRBACRoleController :=
  controllerWith (onlyR1 (rbacR1 [R1])) [originR1 [R1]].

Definition orphaned : OriginRoleToRBACRoleController :=
  controllerWith (onlyR1 (rbacR1 [R1])) [].

Definition diverged : OriginRoleToRBACRoleController :=
  controllerWith (onlyR1 (rbacR1 [R1])) [originR1 [R1; R2]].

Definition unconvertible : OriginRoleToRBACRoleController :=
  controllerWith (onlyR1 (rbacR1 [R1])) [originR1 [Rrestricted]].

(** What the derived store holds after the update of scenario D: the object
    written, under a new resource version. *)
Definition stored : rbac.Role :=
  withMeta (setResourceVersion "6") (rbacR1 [R1; R2]).

Definition afterUpdate : OriginRoleToRBACRoleController :=
  controllerWith (onlyR1 stored) [originR1 [R1; R2]].

End Fixtures.

(** ** The derived store between two reconciles *)

(** The derived store owns the identity metadata of what it holds and
    nothing else (specification, section 3).  [storeReflects acts before
    after] says that [after] is what the RBAC lister answers for a key once
    the store has carried out the writes [acts] of one reconcile of that
    key, when it answered [before] at that reconcile: an object written is
    held as written up to its identity metadata, a deleted one is gone, and
    without a write nothing has changed. *)
Definition storeReflects (acts : list Action) (before after : rbac.Role + error) : Prop :=
  match acts with
  | [] => after = before
  | [CreateAction _ obj] | [UpdateAction _ obj] =>
      exists stored, after = inl stored /\ stompIdentity obj stored = stored
  | [DeleteAction _ _] =>
      exists err, after = inr err /\ IsNotFound (Some err) = true
  | _ => False
  end.

(** The error [syncRole] returns and the writes it issued, starting from a
    client in state [s] that has recorded nothing. *)
Definition result {S : Type} (run : Call (Recorder S) (option error)) (s : S) : option error :=
  (run (fresh s)).1.

Definition writes {S : Type} (run : Call (Recorder S) (option error)) (s : S) : list Action :=
  actions (run (fresh s)).2.

(** ** The paths through [syncRole]

    One constructor per way of leaving [syncRole], in the order of the
    source: the error returned, the writes issued and the state the client
    is left in, from a client in state [s]. *)

Section Paths.

Variable convert : authorizationapi.Role -> rbac.Role + error.
Variable cloner : rbac.Role -> option error.
Context {S : Type} `{client : RolesGetter S}.
Variables (c : OriginRoleToRBACRoleController) (key : string) (s : S).

(** The RBAC lookup did not stop the invocation: the role was found, or
    the error is NotFound. *)
Definition rbacLookupPasses (namespace name : string) : Prop :=
  forall err, rbacLister c namespace name = inr err -> IsNotFound (Some err) = true.

Inductive SyncPath : option error -> list Action -> S -> Prop :=
| PathBadKey err :
    SplitMetaNamespaceKey key = inr err ->
    SyncPath (Some err) [] s
| PathRbacLookupFailed namespace name err :
    SplitMetaNamespaceKey key = inl (namespace, name) ->
    rbacLister c namespace name = inr err ->
    IsNotFound (Some err) = false ->
    SyncPath (Some err) [] s
| PathOriginLookupFailed namespace name err :
    SplitMetaNamespaceKey key = inl (namespace, name) ->
    rbacLookupPasses namespace name ->
    originLister c (originIndexer c) namespace name = inr err ->
    IsNotFound (Some err) = false ->
    SyncPath (Some err) [] s
| PathNeither namespace name rbacErr originErr :
    SplitMetaNamespaceKey key = inl (namespace, name) ->
    rbacLister c namespace name = inr rbacErr ->
    IsNotFound (Some rbacErr) = true ->
    originLister c (originIndexer c) namespace name = inr originErr ->
    IsNotFound (Some originErr) = true ->
    SyncPath None [] s
| PathOrphan namespace name rbacRole originErr :
    SplitMetaNamespaceKey key = inl (namespace, name) ->
    rbacLister c namespace name = inl rbacRole ->
    originLister c (originIndexer c) namespace name = inr originErr ->
    IsNotFound (Some originErr) = true ->
    SyncPath (Delete namespace name s).1 [DeleteAction namespace name]
             (Delete namespace name s).2
| PathConvertFailed namespace name originRole err :
    SplitMetaNamespaceKey key = inl (namespace, name) ->
    rbacLookupPasses namespace name ->
    originLister c (originIndexer c) namespace name = inl originRole ->
    convert originRole = inr err ->
    SyncPath (Some err) [] s
| PathCopyFailed namespace name originRole convertedRole err :
    SplitMetaNamespaceKey key = inl (namespace, name) ->
    rbacLookupPasses namespace name ->
    originLister c (originIndexer c) namespace name = inl originRole ->
    convert originRole = inl convertedRole ->
    cloner convertedRole = Some err ->
    SyncPath (Some err) [] s
| PathCreate namespace name rbacErr originRole convertedRole obj :
    SplitMetaNamespaceKey key = inl (namespace, name) ->
    rbacLister c namespace name = inr rbacErr ->
    IsNotFound (Some rbacErr) = true ->
    originLister c (originIndexer c) namespace name = inl originRole ->
    convert originRole = inl convertedRole ->
    cloner convertedRole = None ->
    obj = withMeta (setResourceVersion "") convertedRole ->
    SyncPath (errOf (Create namespace obj s).1) [CreateAction namespace obj]
             (Create namespace obj s).2
| PathUpToDate namespace name rbacRole originRole convertedRole :
    SplitMetaNamespaceKey key = inl (namespace, name) ->
    rbacLister c namespace name = inl rbacRole ->
    originLister c (originIndexer c) namespace name = inl originRole ->
    convert originRole = inl convertedRole ->
    cloner convertedRole = None ->
    DeepEqual (stompIdentity convertedRole rbacRole) rbacRole = true ->
    SyncPath None [] s
| PathUpdate namespace name rbacRole originRole convertedRole obj :
    SplitMetaNamespaceKey key = inl (namespace, name) ->
    rbacLister c namespace name = inl rbacRole ->
    originLister c (originIndexer c) namespace name = inl originRole ->
    convert originRole = inl convertedRole ->
    cloner convertedRole = None ->
    obj = stompIdentity convertedRole rbacRole ->
    DeepEqual obj rbacRole = false ->
    IsInvalid (errOf (Update namespace obj s).1) = false ->
    SyncPath (errOf (Update namespace obj s).1) [UpdateAction namespace obj]
             (Update namespace obj s).2
| PathSelfHeal namespace name rbacRole originRole convertedRole obj :
    SplitMetaNamespaceKey key = inl (namespace, name) ->
    rbacLister c namespace name = inl rbacRole ->
    originLister c (originIndexer c) namespace name = inl originRole ->
    convert originRole = inl convertedRole ->
    cloner convertedRole = None ->
    obj = stompIdentity convertedRole rbacRole ->
    DeepEqual obj rbacRole = false ->
    IsInvalid (errOf (Update namespace obj s).1) = true ->
    SyncPath (errOf (Update namespace obj s).1)
             [UpdateAction namespace obj; DeleteAction namespace name]
             (Delete namespace name (Update namespace obj s).2).2.

End Paths.

(** ** Notions used in the statements below *)

(** The key under which the indexer files an origin role, which is also the
    key the handlers enqueue for it. *)
Definition roleKey (originObj : authorizationapi.Role) : string :=
  MetaNamespaceKeyFunc (authorizationapi.Meta originObj).

(** The string holds no slash. *)
Fixpoint noSlash (s : string) : bool :=
  match s with
  | EmptyString => true
  | String c rest => negb (Ascii.eqb c "/"%char) && noSlash rest
  end.

(** Two RBAC roles agree on everything but the four identity fields
    [syncRole] overwrites. *)
Definition samePayload (a b : rbac.Role) : Prop :=
  Name (rbac.Meta a) = Name (rbac.Meta b) /\
  Namespace (rbac.Meta a) = Namespace (rbac.Meta b) /\
  Labels (rbac.Meta a) = Labels (rbac.Meta b) /\
  Annotations (rbac.Meta a) = Annotations (rbac.Meta b) /\
  rbac.Rules a = rbac.Rules b.

(** The namespace an action is addressed to. *)
Definition actionNamespace (a : Action) : string :=
  match a with
  | CreateAction namespace _ => namespace
  | UpdateAction namespace _ => namespace
  | DeleteAction namespace _ => namespace
  end.


(** * Properties *)

(** ** Evaluating the steps of [syncRole] *)

Lemma IsNotFound_not_nil (err : option error) :
  IsNotFound err = true -> negb (IsNotFound err) && bool_decide (err ≠ None) = false.
Proof. intros ->. reflexivity. Qed.

Lemma nil_error_passes (err : option error) :
  err = None -> negb (IsNotFound err) && bool_decide (err ≠ None) = false.
Proof. intros ->. reflexivity. Qed.

Lemma other_error_returns (err : option error) :
  negb (IsNotFound err) && bool_decide (err ≠ None) = true ->
  IsNotFound err = false /\ exists e, err = Some e.
Proof.
  intros [Hnf Hnn]%andb_prop. split.
  - destruct (IsNotFound err); [discriminate | reflexivity].
  - apply bool_decide_eq_true in Hnn. destruct err as [e|]; [eauto | congruence].
Qed.

Lemma bind_run {S A B : Type} (m : Call S A) (k : A -> Call S B) (s : S) :
  bind m k s = k (m s).1 (m s).2.
Proof. unfold bind. destruct (m s); reflexivity. Qed.

Lemma record_run {S A : Type} (a : Action) (call : S -> A * S) (st : Recorder S) :
  record a call st = ((call (backend st)).1, mkRecorder (call (backend st)).2 (actions st ++ [a])).
Proof. unfold record. destruct (call (backend st)); reflexivity. Qed.

Section SyncFacts.

Variable convert : authorizationapi.Role -> rbac.Role + error.
Variable cloner : rbac.Role -> option error.
Context {S : Type} `{client : RolesGetter S}.

Abbreviation sync := (syncRole convert cloner (S := Recorder S)).

(** The lookups of one invocation, classified the way the guards of
    [syncRole] see them. *)
Variables (c : OriginRoleToRBACRoleController) (key namespace name : string).
Hypothesis Hkey : SplitMetaNamespaceKey key = inl (namespace, name).

Lemma sync_orphan (st : Recorder S) (rbacRole : rbac.Role) (originErr : error) :
  rbacLister c namespace name = inl rbacRole ->
  originLister c (originIndexer c) namespace name = inr originErr ->
  IsNotFound (Some originErr) = true ->
  sync c key st = Delete namespace name st.
Proof.
  intros Hr Ho Hnf. unfold syncRole. rewrite Hkey, Hr, Ho. cbn [errOf].
  rewrite (IsNotFound_not_nil _ Hnf), Hnf. reflexivity.
Qed.

Lemma sync_create (st : Recorder S) (rbacErr : error) originRole convertedRole :
  rbacLister c namespace name = inr rbacErr ->
  IsNotFound (Some rbacErr) = true ->
  originLister c (originIndexer c) namespace name = inl originRole ->
  convert originRole = inl convertedRole ->
  cloner convertedRole = None ->
  sync c key st =
    (res <- Create namespace (withMeta (setResourceVersion "") convertedRole) ;;
     ret (errOf res))%call st.
Proof.
  intros Hr Hnf Ho Hc Hd. unfold syncRole, DeepCopy_rbac_Role.
  rewrite Hkey, Hr, Ho, Hc, Hd. cbn [errOf].
  rewrite (IsNotFound_not_nil _ Hnf), Hnf. reflexivity.
Qed.

Lemma sync_compare (st : Recorder S) rbacRole originRole convertedRole :
  rbacLister c namespace name = inl rbacRole ->
  originLister c (originIndexer c) namespace name = inl originRole ->
  convert originRole = inl convertedRole ->
  cloner convertedRole = None ->
  sync c key st =
    (let equivalentRole := stompIdentity convertedRole rbacRole in
     if DeepEqual equivalentRole rbacRole then ret None else
       (res <- Update namespace equivalentRole ;;
        if IsInvalid (errOf res) then (_ <- Delete namespace name ;; ret (errOf res))
        else ret (errOf res))%call) st.
Proof.
  intros Hr Ho Hc Hd. unfold syncRole, DeepCopy_rbac_Role.
  rewrite Hkey, Hr, Ho, Hc, Hd. reflexivity.
Qed.

End SyncFacts.

(** ** Every invocation follows one of the paths *)

Section PathSound.

Variable convert : authorizationapi.Role -> rbac.Role + error.
Variable cloner : rbac.Role -> option error.
Context {S : Type} `{client : RolesGetter S}.

Lemma rbacLookupPasses_found c namespace name rbacRole :
  rbacLister c namespace name = inl rbacRole -> rbacLookupPasses c namespace name.
Proof. intros H err. rewrite H. discriminate. Qed.

Lemma rbacLookupPasses_not_found c namespace name rbacErr :
  rbacLister c namespace name = inr rbacErr -> IsNotFound (Some rbacErr) = true ->
  rbacLookupPasses c namespace name.
Proof. intros H Hnf err. rewrite H. intros [= <-]. exact Hnf. Qed.

Lemma syncRole_path (c : OriginRoleToRBACRoleController) (key : string) (s : S) :
  let out := syncRole convert cloner c key (fresh s) in
  SyncPath convert cloner c key s out.1 (actions out.2) (backend out.2).
Proof.
  unfold syncRole.
  destruct (SplitMetaNamespaceKey key) as [[namespace name]|err] eqn:Hkey;
    [|by apply PathBadKey].
  destruct (rbacLister c namespace name) as [rbacRole|rbacErr] eqn:Hr; cbn [errOf].
  - (* the RBAC role exists *)
    pose proof (rbacLookupPasses_found _ _ _ _ Hr) as Hpass.
    destruct (originLister c (originIndexer c) namespace name)
      as [originRole|originErr] eqn:Ho; cbn [errOf].
    + cbn [IsNotFound negb andb bool_decide decide_rel]. simpl.
      destruct (convert originRole) as [convertedRole|err] eqn:Hc;
        [|by eapply PathConvertFailed].
      unfold DeepCopy_rbac_Role.
      destruct (cloner convertedRole) as [err|] eqn:Hd;
        [by eapply PathCopyFailed|].
      destruct (DeepEqual _ rbacRole) eqn:Heq; [by eapply PathUpToDate|].
      rewrite bind_run. cbn [Update recording]. rewrite record_run.
      cbn [fst snd backend actions fresh app].
      destruct (IsInvalid _) eqn:Hinv.
      * rewrite bind_run. cbn [Delete recording]. rewrite record_run. cbn.
        by eapply PathSelfHeal.
      * cbn. by eapply PathUpdate.
    + destruct (IsNotFound (Some originErr)) eqn:Hnf; simpl.
      * cbn [Delete recording]. rewrite record_run. cbn.
        by eapply PathOrphan.
      * by eapply PathOriginLookupFailed.
  - (* the RBAC lookup failed *)
    destruct (IsNotFound (Some rbacErr)) eqn:Hrnf; simpl;
      [|by eapply PathRbacLookupFailed].
    pose proof (rbacLookupPasses_not_found _ _ _ _ Hr Hrnf) as Hpass.
    destruct (originLister c (originIndexer c) namespace name)
      as [originRole|originErr] eqn:Ho; cbn [errOf].
    + simpl.
      destruct (convert originRole) as [convertedRole|err] eqn:Hc;
        [|by eapply PathConvertFailed].
      unfold DeepCopy_rbac_Role.
      destruct (cloner convertedRole) as [err|] eqn:Hd;
        [by eapply PathCopyFailed|].
      rewrite bind_run. cbn [Create recording]. rewrite record_run. cbn.
      by eapply PathCreate.
    + destruct (IsNotFound (Some originErr)) eqn:Hnf; simpl.
      * by eapply PathNeither.
      * by eapply PathOriginLookupFailed.
Qed.

End PathSound.

(** ** Identity metadata *)

Lemma stompIdentity_fields (equivalentRole rbacRole : rbac.Role) :
  let obj := stompIdentity equivalentRole rbacRole in
  SelfLink (rbac.Meta obj) = SelfLink (rbac.Meta rbacRole) /\
  UID (rbac.Meta obj) = UID (rbac.Meta rbacRole) /\
  ResourceVersion (rbac.Meta obj) = ResourceVersion (rbac.Meta rbacRole) /\
  CreationTimestamp (rbac.Meta obj) = CreationTimestamp (rbac.Meta rbacRole).
Proof. repeat split. Qed.

(** Overwriting the identity metadata forgets the identity metadata the
    candidate had before. *)
Lemma stompIdentity_absorbs_version (v : string) (equivalentRole rbacRole : rbac.Role) :
  stompIdentity (withMeta (setResourceVersion v) equivalentRole) rbacRole
  = stompIdentity equivalentRole rbacRole.
Proof. reflexivity. Qed.

Lemma stompIdentity_absorbs_stomp (equivalentRole previous rbacRole : rbac.Role) :
  stompIdentity (stompIdentity equivalentRole previous) rbacRole
  = stompIdentity equivalentRole rbacRole.
Proof. reflexivity. Qed.

Lemma DeepEqual_true (a b : rbac.Role) : DeepEqual a b = true <-> a = b.
Proof. unfold DeepEqual. apply bool_decide_eq_true. Qed.

(** ** The claims about [syncRole] *)

(** C2. When the origin role and the RBAC role both exist, their contents
    differ and the update is rejected as invalid, [syncRole] issues the
    update and then a delete for the same namespace and name, takes no
    notice of what the delete answers, and returns the error of the
    update. *)
Theorem invalid_update_deletes_and_returns_update_error
  (convert : authorizationapi.Role -> rbac.Role + error)
  (cloner : rbac.Role -> option error)
  {S : Type} `{client : RolesGetter S}
  (c : OriginRoleToRBACRoleController) (key namespace name : string) (s : S)
  (rbacRole : rbac.Role) (originRole : authorizationapi.Role)
  (convertedRole : rbac.Role) (invalidErr : error) :
  SplitMetaNamespaceKey key = inl (namespace, name) ->
  rbacLister c namespace name = inl rbacRole ->
  originLister c (originIndexer c) namespace name = inl originRole ->
  convert originRole = inl convertedRole ->
  cloner convertedRole = None ->
  DeepEqual (stompIdentity convertedRole rbacRole) rbacRole = false ->
  (Update namespace (stompIdentity convertedRole rbacRole) s).1 = inr invalidErr ->
  IsInvalid (Some invalidErr) = true ->
  let obj := stompIdentity convertedRole rbacRole in
  writes (syncRole convert cloner c key) s
    = [UpdateAction namespace obj; DeleteAction namespace name] /\
  result (syncRole convert cloner c key) s = Some invalidErr /\
  backend (syncRole convert cloner c key (fresh s)).2
    = (Delete namespace name (Update namespace obj s).2).2.
Proof.
  intros Hkey Hr Ho Hc Hd Hne Hup Hinv obj. unfold writes, result.
  rewrite (sync_compare convert cloner c key namespace name Hkey (fresh s)
             rbacRole originRole convertedRole Hr Ho Hc Hd).
  cbn zeta. rewrite Hne, bind_run. cbn [Update recording].
  rewrite record_run. cbn [fst snd backend actions fresh app].
  rewrite Hup. cbn [errOf]. rewrite Hinv, bind_run. cbn [Delete recording].
  rewrite record_run. cbn. done.
Qed.

(** C3. Every update [syncRole] issues carries the UID, the resource
    version, the creation timestamp and the self link of the RBAC role the
    lister returned, whatever the conversion had put there. *)
Theorem update_carries_existing_identity
  (convert : authorizationapi.Role -> rbac.Role + error)
  (cloner : rbac.Role -> option error)
  {S : Type} `{client : RolesGetter S}
  (c : OriginRoleToRBACRoleController) (key : string) (s : S)
  (ns : string) (obj : rbac.Role) :
  UpdateAction ns obj ∈ writes (syncRole convert cloner c key) s ->
  exists namespace name rbacRole,
    SplitMetaNamespaceKey key = inl (namespace, name) /\
    ns = namespace /\
    rbacLister c namespace name = inl rbacRole /\
    UID (rbac.Meta obj) = UID (rbac.Meta rbacRole) /\
    ResourceVersion (rbac.Meta obj) = ResourceVersion (rbac.Meta rbacRole) /\
    CreationTimestamp (rbac.Meta obj) = CreationTimestamp (rbac.Meta rbacRole) /\
    SelfLink (rbac.Meta obj) = SelfLink (rbac.Meta rbacRole).
Proof.
  unfold writes. intros Hin.
  pose proof (syncRole_path convert cloner c key s) as Hpath. cbn zeta in Hpath.
  destruct Hpath; set_unfold in Hin; try tauto.
  all: destruct Hin as [Hin|Hin]; try discriminate; try tauto.
  all: try (destruct Hin as [Hin|Hin]; try discriminate; try tauto).
  all: injection Hin as -> ->; subst; eexists _, _, _;
    split; [eassumption|]; split; [reflexivity|]; split; [eassumption|];
    repeat split.
Qed.

(** C5. When the origin role exists and the RBAC lookup answers NotFound,
    [syncRole] issues exactly one write, a create of the converted origin
    role with its resource version emptied and nothing else changed, and
    returns what the create returned. *)
Theorem absent_rbac_role_is_created
  (convert : authorizationapi.Role -> rbac.Role + error)
  (cloner : rbac.Role -> option error)
  {S : Type} `{client : RolesGetter S}
  (c : OriginRoleToRBACRoleController) (key namespace name : string) (s : S)
  (rbacErr : error) (originRole : authorizationapi.Role) (convertedRole : rbac.Role) :
  SplitMetaNamespaceKey key = inl (namespace, name) ->
  rbacLister c namespace name = inr rbacErr ->
  IsNotFound (Some rbacErr) = true ->
  originLister c (originIndexer c) namespace name = inl originRole ->
  convert originRole = inl convertedRole ->
  cloner convertedRole = None ->
  exists obj,
    writes (syncRole convert cloner c key) s = [CreateAction namespace obj] /\
    ResourceVersion (rbac.Meta obj) = "" /\
    withMeta (setResourceVersion (ResourceVersion (rbac.Meta convertedRole))) obj
      = convertedRole /\
    result (syncRole convert cloner c key) s = errOf (Create namespace obj s).1 /\
    backend (syncRole convert cloner c key (fresh s)).2 = (Create namespace obj s).2.
Proof.
  intros Hkey Hr Hnf Ho Hc Hd.
  exists (withMeta (setResourceVersion "") convertedRole). unfold writes, result.
  rewrite (sync_create convert cloner c key namespace name Hkey (fresh s)
             rbacErr originRole convertedRole Hr Hnf Ho Hc Hd).
  rewrite bind_run. cbn [Create recording]. rewrite record_run. cbn.
  repeat split. destruct convertedRole as [[] ?]. reflexivity.
Qed.

(** C10. When the origin role is present and its conversion, or the copy of
    the converted role, fails, [syncRole] returns that error and has called
    neither create nor update nor delete: the client is where it was. *)
Theorem failed_conversion_writes_nothing
  (convert : authorizationapi.Role -> rbac.Role + error)
  (cloner : rbac.Role -> option error)
  {S : Type} `{client : RolesGetter S}
  (c : OriginRoleToRBACRoleController) (key namespace name : string) (s : S)
  (originRole : authorizationapi.Role) (err : error) :
  SplitMetaNamespaceKey key = inl (namespace, name) ->
  rbacLookupPasses c namespace name ->
  originLister c (originIndexer c) namespace name = inl originRole ->
  (convert originRole = inr err \/
   exists convertedRole,
     convert originRole = inl convertedRole /\ cloner convertedRole = Some err) ->
  syncRole convert cloner c key (fresh s) = (Some err, fresh s).
Proof.
  intros Hkey Hpass Ho Hfail. unfold syncRole, DeepCopy_rbac_Role.
  rewrite Hkey, Ho. cbn [errOf].
  assert (negb (IsNotFound (errOf (rbacLister c namespace name)))
          && bool_decide (errOf (rbacLister c namespace name) ≠ None) = false) as ->.
  { destruct (rbacLister c namespace name) as [|rbacErr] eqn:Hr; [reflexivity|].
    cbn [errOf]. apply IsNotFound_not_nil, Hpass, Hr. }
  cbn [IsNotFound negb andb]. rewrite andb_false_r.
  destruct Hfail as [Hc|(convertedRole & Hc & Hd)]; rewrite Hc; [reflexivity|].
  rewrite Hd. reflexivity.
Qed.

Section Again.

Variable convert : authorizationapi.Role -> rbac.Role + error.
Variable cloner : rbac.Role -> option error.
Context {S : Type} `{client : RolesGetter S}.

Lemma sync_neither (c : OriginRoleToRBACRoleController) (key namespace name : string)
  (st : Recorder S) (rbacErr originErr : error) :
  SplitMetaNamespaceKey key = inl (namespace, name) ->
  rbacLister c namespace name = inr rbacErr ->
  IsNotFound (Some rbacErr) = true ->
  originLister c (originIndexer c) namespace name = inr originErr ->
  IsNotFound (Some originErr) = true ->
  syncRole convert cloner c key st = (None, st).
Proof.
  intros Hkey Hr Hrnf Ho Honf. unfold syncRole. rewrite Hkey, Hr, Ho. cbn [errOf].
  rewrite (IsNotFound_not_nil _ Hrnf), (IsNotFound_not_nil _ Honf), Hrnf, Honf.
  reflexivity.
Qed.

Lemma sync_up_to_date (c : OriginRoleToRBACRoleController) (key namespace name : string)
  (st : Recorder S) rbacRole originRole convertedRole :
  SplitMetaNamespaceKey key = inl (namespace, name) ->
  rbacLister c namespace name = inl rbacRole ->
  originLister c (originIndexer c) namespace name = inl originRole ->
  convert originRole = inl convertedRole ->
  cloner convertedRole = None ->
  stompIdentity convertedRole rbacRole = rbacRole ->
  syncRole convert cloner c key st = (None, st).
Proof.
  intros Hkey Hr Ho Hc Hd Heq.
  rewrite (sync_compare convert cloner c key namespace name Hkey st
             rbacRole originRole convertedRole Hr Ho Hc Hd).
  cbn zeta. apply DeepEqual_true in Heq. rewrite Heq. reflexivity.
Qed.

(** After a path that ended without error, and with the derived store
    reflecting its writes, the next invocation for the same key and the
    same origin role has nothing to do. *)
Lemma path_then_nothing_to_do (c c' : OriginRoleToRBACRoleController)
  (key namespace name : string) (s s1 : S) (st' : Recorder S)
  (err : option error) (acts : list Action) :
  SyncPath convert cloner c key s err acts s1 ->
  err = None ->
  SplitMetaNamespaceKey key = inl (namespace, name) ->
  originLister c' (originIndexer c') namespace name
    = originLister c (originIndexer c) namespace name ->
  storeReflects acts (rbacLister c namespace name) (rbacLister c' namespace name) ->
  syncRole convert cloner c' key st' = (None, st').
Proof.
  intros Hpath. destruct Hpath; intros Herr Hkey Horigin Hstore;
    try discriminate;
    match goal with
    | Hk : SplitMetaNamespaceKey key = inl (?ns, ?n) |- _ =>
        rewrite Hkey in Hk; injection Hk as <- <-
    end;
    subst; cbn [storeReflects] in Hstore;
    repeat match goal with
           | H : originLister c _ _ _ = _ |- _ => rewrite H in Horigin; clear H
           | H : rbacLister c _ _ = _ |- _ => rewrite H in Hstore; clear H
           end.
  - (* neither existed *)
    eapply sync_neither; eassumption.
  - (* the orphan was deleted *)
    destruct Hstore as (err' & Hr' & Hnf').
    eapply sync_neither; eassumption.
  - (* the role was created *)
    destruct Hstore as (stored & Hr' & Hstored).
    rewrite stompIdentity_absorbs_version in Hstored.
    eapply sync_up_to_date; eassumption.
  - (* the roles were equal already *)
    eapply sync_up_to_date; try eassumption.
    by apply DeepEqual_true.
  - (* the role was updated *)
    destruct Hstore as (stored & Hr' & Hstored).
    rewrite stompIdentity_absorbs_stomp in Hstored.
    eapply sync_up_to_date; eassumption.
  - (* a rejected update is an error *)
    match goal with
    | Hinv : IsInvalid ?e = true, Hnone : ?e = None |- _ =>
        rewrite Hnone in Hinv; discriminate
    end.
Qed.

End Again.

(** C4. When the origin role and the RBAC role both exist and the
    converted role, once it carries the identity metadata of the RBAC role,
    is deep-equal to it, [syncRole] returns nil and calls neither create nor
    update nor delete.  Hence a second reconcile of a key whose origin role
    has not changed, after a first one that returned nil and whose writes
    the derived store has carried out, returns nil without any write. *)
Theorem equal_roles_need_no_write
  (convert : authorizationapi.Role -> rbac.Role + error)
  (cloner : rbac.Role -> option error)
  {S : Type} `{client : RolesGetter S} :
  (forall (c : OriginRoleToRBACRoleController) (key namespace name : string) (s : S)
          (rbacRole : rbac.Role) (originRole : authorizationapi.Role)
          (convertedRole : rbac.Role),
      SplitMetaNamespaceKey key = inl (namespace, name) ->
      rbacLister c namespace name = inl rbacRole ->
      originLister c (originIndexer c) namespace name = inl originRole ->
      convert originRole = inl convertedRole ->
      cloner convertedRole = None ->
      DeepEqual (stompIdentity convertedRole rbacRole) rbacRole = true ->
      syncRole convert cloner c key (fresh s) = (None, fresh s))
  /\
  (forall (c c' : OriginRoleToRBACRoleController) (key namespace name : string)
          (s s' : S),
      SplitMetaNamespaceKey key = inl (namespace, name) ->
      result (syncRole convert cloner c key) s = None ->
      originLister c' (originIndexer c') namespace name
        = originLister c (originIndexer c) namespace name ->
      storeReflects (writes (syncRole convert cloner c key) s)
        (rbacLister c namespace name) (rbacLister c' namespace name) ->
      syncRole convert cloner c' key (fresh s') = (None, fresh s')).
Proof.
  split.
  - intros c key namespace name s rbacRole originRole convertedRole
      Hkey Hr Ho Hc Hd Heq.
    eapply sync_up_to_date; eauto. by apply DeepEqual_true.
  - intros c c' key namespace name s s' Hkey Hres Horigin Hstore.
    eapply path_then_nothing_to_do; eauto using syncRole_path.
Qed.

(** C6, as the code has it.  When the origin lookup answers NotFound and
    the RBAC role exists, [syncRole] issues exactly one write, a delete for
    the namespace and name of the key, and returns whatever the delete
    returned: an error of the delete, NotFound or not, is the error of
    [syncRole]. *)
Theorem orphan_is_deleted_and_delete_answer_returned
  (convert : authorizationapi.Role -> rbac.Role + error)
  (cloner : rbac.Role -> option error)
  {S : Type} `{client : RolesGetter S}
  (c : OriginRoleToRBACRoleController) (key namespace name : string) (s : S)
  (rbacRole : rbac.Role) (originErr : error) :
  SplitMetaNamespaceKey key = inl (namespace, name) ->
  rbacLister c namespace name = inl rbacRole ->
  originLister c (originIndexer c) namespace name = inr originErr ->
  IsNotFound (Some originErr) = true ->
  writes (syncRole convert cloner c key) s = [DeleteAction namespace name] /\
  result (syncRole convert cloner c key) s = (Delete namespace name s).1 /\
  (forall err, (Delete namespace name s).1 = Some err ->
               result (syncRole convert cloner c key) s = Some err) /\
  backend (syncRole convert cloner c key (fresh s)).2 = (Delete namespace name s).2.
Proof.
  intros Hkey Hr Ho Hnf. unfold writes, result.
  rewrite (sync_orphan convert cloner c key namespace name Hkey (fresh s)
             rbacRole originErr Hr Ho Hnf).
  cbn [Delete recording]. rewrite record_run. cbn.
  repeat split. intros err ->. reflexivity.
Qed.

(** C7, as the code has it.  A key that does not parse makes [syncRole]
    return the parse error to its caller, before any lookup and without any
    write; what becomes of the key is the caller's business. *)
Theorem unparsable_key_error_is_returned
  (convert : authorizationapi.Role -> rbac.Role + error)
  (cloner : rbac.Role -> option error)
  {S : Type} `{client : RolesGetter S}
  (c : OriginRoleToRBACRoleController) (key : string) (s : S) (err : error) :
  SplitMetaNamespaceKey key = inr err ->
  syncRole convert cloner c key (fresh s) = (Some err, fresh s).
Proof. intros Hkey. unfold syncRole. rewrite Hkey. reflexivity. Qed.

(** C8, as the code has it.  An invocation of [syncRole] issues at most one
    write, except when an update is rejected as invalid: then it issues
    two, the update and a delete for the same namespace and name. *)
Theorem at_most_one_write_unless_update_invalid
  (convert : authorizationapi.Role -> rbac.Role + error)
  (cloner : rbac.Role -> option error)
  {S : Type} `{client : RolesGetter S}
  (c : OriginRoleToRBACRoleController) (key : string) (s : S) :
  List.length (writes (syncRole convert cloner c key) s) <= 1 \/
  exists namespace name obj,
    SplitMetaNamespaceKey key = inl (namespace, name) /\
    writes (syncRole convert cloner c key) s
      = [UpdateAction namespace obj; DeleteAction namespace name] /\
    IsInvalid (errOf (Update namespace obj s).1) = true /\
    result (syncRole convert cloner c key) s = errOf (Update namespace obj s).1.
Proof.
  unfold writes, result.
  pose proof (syncRole_path convert cloner c key s) as Hpath. cbn zeta in Hpath.
  destruct Hpath; cbn [List.length]; try (left; lia).
  right. eauto 10.
Qed.

(** ** The event handlers *)

(** No callback ever takes a key out of the indexer: each of them only
    adds. *)
Lemma ingestRole_keeps (st : Ingest) (originObj : authorizationapi.Role) (k : string) :
  is_Some (originIndexer (ctl st) !! k) ->
  is_Some (originIndexer (ctl (ingestRole st originObj)) !! k).
Proof.
  intros Hk. unfold ingestRole, KeyFunc, Indexer_Add. cbn.
  apply lookup_insert_is_Some'. by right.
Qed.

Lemma ingestRoles_keeps (p : authorizationapi.Policy) (st : Ingest) (k : string) :
  is_Some (originIndexer (ctl st) !! k) ->
  is_Some (originIndexer (ctl (ingestRoles p st)) !! k).
Proof.
  unfold ingestRoles. generalize (authorizationapi.Roles p). intros roles.
  revert st. induction roles as [|r roles IH]; intros st Hk; cbn [foldl].
  - exact Hk.
  - apply IH, ingestRole_keeps, Hk.
Qed.

Lemma handlers_never_remove (old obj : Object) (st st' : Ingest) (k : string) :
  AddFunc obj st = Returned st' \/ UpdateFunc old obj st = Returned st'
  \/ DeleteFunc obj st = Returned st' ->
  is_Some (originIndexer (ctl st) !! k) ->
  is_Some (originIndexer (ctl st') !! k).
Proof.
  intros Hrun Hk.
  destruct Hrun as [Hrun|[Hrun|Hrun]];
    destruct obj as [p|key [[p| |]|]|]; try discriminate;
    cbn in Hrun; injection Hrun as <-; by apply ingestRoles_keeps.
Qed.

(** C1, at a failing input.  The origin role a/r1 is in the indexer and the
    RBAC role a/r1 exists.  Whether the policy holding a/r1 is deleted, or
    updated to a policy that no longer lists it, the origin lister still
    returns a/r1 once the handler has run, and [syncRole] for "a/r1"
    returns nil without a delete: the RBAC role stays. *)
Theorem disappeared_role_is_not_removed :
  let rules := [Fixtures.R1] in
  let st := mkIngest (Fixtures.controllerWith (Fixtures.onlyR1 (Fixtures.rbacR1 rules))
                        [Fixtures.originR1 rules]) [] in
  let policy := PolicyObj (Fixtures.policyA [Fixtures.originR1 rules]) in
  (exists st',
      DeleteFunc policy st = Returned st' /\
      originLister (ctl st') (originIndexer (ctl st')) "a" "r1"
        = inl (Fixtures.originR1 rules) /\
      queue (ctl st') = ["a/r1"] /\
      syncRole Fixtures.convert Fixtures.noCloneError (ctl st') "a/r1" (fresh [])
        = (None, fresh []))
  /\
  (exists st',
      UpdateFunc policy (PolicyObj (Fixtures.policyA [])) st = Returned st' /\
      originLister (ctl st') (originIndexer (ctl st')) "a" "r1"
        = inl (Fixtures.originR1 rules) /\
      queue (ctl st') = [] /\
      syncRole Fixtures.convert Fixtures.noCloneError (ctl st') "a/r1" (fresh [])
        = (None, fresh [])).
Proof.
  cbn zeta. split; eexists; (split; [reflexivity|]); vm_compute; done.
Qed.

(** C9, on the code.  A delete notification whose object is neither a
    policy nor a tombstone holding a policy makes [DeleteFunc] report the
    error and then panic on the nil container, without touching the
    controller. *)
Theorem undecodable_delete_panics (obj : Object) (st : Ingest) :
  (forall p, obj <> PolicyObj p) ->
  (forall key p, obj <> DeletedFinalStateUnknownObj key (Some (PolicyObj p))) ->
  exists st',
    DeleteFunc obj st = Panicked st' /\
    ctl st' = ctl st /\
    notAPolicy ∈ handled st'.
Proof.
  intros Hpolicy Htombstone.
  destruct obj as [p|key [[p| |]|]|]; cbn; try (by destruct (Hpolicy p));
    try (by destruct (Htombstone key p));
    eexists; (split; [reflexivity|]); cbn; split; try reflexivity; set_solver.
Qed.

(** ** The claims at concrete inputs *)

Example Split_namespaced : Split "a/r1" = ["a"; "r1"].
Proof. reflexivity. Qed.

Example Split_no_slash : SplitMetaNamespaceKey "r1" = inl ("", "r1").
Proof. reflexivity. Qed.

Example Split_trailing_slash : Split "a/" = ["a"; ""] /\ Split "" = [""].
Proof. split; reflexivity. Qed.

(** Scenario E: the update is answered with Invalid and the delete that
    follows with another error, which is dropped. *)
Lemma invalid_update_witness :
  writes (syncRole Fixtures.convert Fixtures.noCloneError Fixtures.diverged "a/r1")
         [Some Fixtures.invalid; Some Fixtures.unavailable]
    = [UpdateAction "a" (Fixtures.rbacR1 [Fixtures.R1; Fixtures.R2]);
       DeleteAction "a" "r1"] /\
  result (syncRole Fixtures.convert Fixtures.noCloneError Fixtures.diverged "a/r1")
         [Some Fixtures.invalid; Some Fixtures.unavailable]
    = Some Fixtures.invalid /\
  backend (syncRole Fixtures.convert Fixtures.noCloneError Fixtures.diverged "a/r1"
             (fresh [Some Fixtures.invalid; Some Fixtures.unavailable])).2 = [].
Proof.
  refine (invalid_update_deletes_and_returns_update_error
            Fixtures.convert Fixtures.noCloneError Fixtures.diverged "a/r1" "a" "r1"
            [Some Fixtures.invalid; Some Fixtures.unavailable]
            (Fixtures.rbacR1 [Fixtures.R1])
            (Fixtures.originR1 [Fixtures.R1; Fixtures.R2])
            (rbac.mkRole (Fixtures.meta "a" "r1" "origin-uid" "3" 100)
               (map Fixtures.convertRule [Fixtures.R1; Fixtures.R2]))
            Fixtures.invalid _ _ _ _ _ _ _ _); reflexivity.
Defined.

(** Scenario D: the update written carries the identity of the RBAC role. *)
Lemma update_identity_witness :
  exists namespace name rbacRole,
    SplitMetaNamespaceKey "a/r1" = inl (namespace, name) /\
    "a" = namespace /\
    rbacLister Fixtures.diverged namespace name = inl rbacRole /\
    UID (rbac.Meta (Fixtures.rbacR1 [Fixtures.R1; Fixtures.R2])) = UID (rbac.Meta rbacRole) /\
    ResourceVersion (rbac.Meta (Fixtures.rbacR1 [Fixtures.R1; Fixtures.R2]))
      = ResourceVersion (rbac.Meta rbacRole) /\
    CreationTimestamp (rbac.Meta (Fixtures.rbacR1 [Fixtures.R1; Fixtures.R2]))
      = CreationTimestamp (rbac.Meta rbacRole) /\
    SelfLink (rbac.Meta (Fixtures.rbacR1 [Fixtures.R1; Fixtures.R2]))
      = SelfLink (rbac.Meta rbacRole).
Proof.
  apply (update_carries_existing_identity
           Fixtures.convert Fixtures.noCloneError Fixtures.diverged "a/r1"
           ([] : list (option error))).
  vm_compute. constructor.
Defined.

(** Scenario B, and scenario D reconciled a second time. *)
Lemma no_write_witness :
  syncRole Fixtures.convert Fixtures.noCloneError Fixtures.converged "a/r1"
           (fresh ([] : list (option error))) = (None, fresh [])
  /\
  syncRole Fixtures.convert Fixtures.noCloneError Fixtures.afterUpdate "a/r1"
           (fresh ([] : list (option error))) = (None, fresh []).
Proof.
  split.
  - apply (proj1 (equal_roles_need_no_write Fixtures.convert Fixtures.noCloneError)
             Fixtures.converged "a/r1" "a" "r1" []
             (Fixtures.rbacR1 [Fixtures.R1]) (Fixtures.originR1 [Fixtures.R1])
             (rbac.mkRole (Fixtures.meta "a" "r1" "origin-uid" "3" 100)
                (map Fixtures.convertRule [Fixtures.R1])));
      reflexivity.
  - apply (proj2 (equal_roles_need_no_write Fixtures.convert Fixtures.noCloneError)
             Fixtures.diverged Fixtures.afterUpdate "a/r1" "a" "r1" [] []);
      try reflexivity.
    exists Fixtures.stored. split; reflexivity.
Defined.

(** Scenario A. *)
Lemma create_witness :
  exists obj,
    writes (syncRole Fixtures.convert Fixtures.noCloneError Fixtures.missing "a/r1")
           ([] : list (option error)) = [CreateAction "a" obj] /\
    ResourceVersion (rbac.Meta obj) = "" /\
    withMeta (setResourceVersion "3") obj
      = rbac.mkRole (Fixtures.meta "a" "r1" "origin-uid" "3" 100)
          [Fixtures.convertRule Fixtures.R1] /\
    result (syncRole Fixtures.convert Fixtures.noCloneError Fixtures.missing "a/r1")
           ([] : list (option error)) = None /\
    backend (syncRole Fixtures.convert Fixtures.noCloneError Fixtures.missing "a/r1"
               (fresh ([] : list (option error)))).2 = [].
Proof.
  refine (absent_rbac_role_is_created
            Fixtures.convert Fixtures.noCloneError Fixtures.missing "a/r1" "a" "r1"
            ([] : list (option error)) Fixtures.notFound
            (Fixtures.originR1 [Fixtures.R1])
            (rbac.mkRole (Fixtures.meta "a" "r1" "origin-uid" "3" 100)
               [Fixtures.convertRule Fixtures.R1]) _ _ _ _ _ _);
    reflexivity.
Defined.

(** A rule with attribute restrictions does not convert. *)
Lemma failed_conversion_witness :
  syncRole Fixtures.convert Fixtures.noCloneError Fixtures.unconvertible "a/r1"
           (fresh [Some Fixtures.unavailable])
  = (Some (PlainError "cannot convert attribute restrictions"),
     fresh [Some Fixtures.unavailable]).
Proof.
  apply (failed_conversion_writes_nothing
           Fixtures.convert Fixtures.noCloneError Fixtures.unconvertible "a/r1" "a" "r1"
           [Some Fixtures.unavailable] (Fixtures.originR1 [Fixtures.Rrestricted])).
  - reflexivity.
  - intros err Hfound. vm_compute in Hfound. discriminate Hfound.
  - reflexivity.
  - left. reflexivity.
Defined.

(** The copy fails after a conversion that worked. *)
Example failed_copy_writes_nothing :
  syncRole Fixtures.convert Fixtures.failingCloner Fixtures.diverged "a/r1"
           (fresh ([] : list (option error)))
  = (Some (PlainError "cannot copy"), fresh []).
Proof. reflexivity. Qed.

(** Scenario C, with a delete that succeeds. *)
Lemma orphan_delete_witness :
  writes (syncRole Fixtures.convert Fixtures.noCloneError Fixtures.orphaned "a/r1")
         ([] : list (option error)) = [DeleteAction "a" "r1"] /\
  result (syncRole Fixtures.convert Fixtures.noCloneError Fixtures.orphaned "a/r1")
         ([] : list (option error)) = None /\
  (forall err,
      (Delete "a" "r1" ([] : list (option error))).1 = Some err ->
      result (syncRole Fixtures.convert Fixtures.noCloneError Fixtures.orphaned "a/r1")
             ([] : list (option error)) = Some err) /\
  backend (syncRole Fixtures.convert Fixtures.noCloneError Fixtures.orphaned "a/r1"
             (fresh ([] : list (option error)))).2 = [].
Proof.
  refine (orphan_is_deleted_and_delete_answer_returned
            Fixtures.convert Fixtures.noCloneError Fixtures.orphaned "a/r1" "a" "r1"
            ([] : list (option error)) (Fixtures.rbacR1 [Fixtures.R1])
            Fixtures.notFound _ _ _ _); reflexivity.
Defined.

(** Scenario C, with a delete answered NotFound: the role was already gone
    from the derived store, and [syncRole] returns that NotFound as its
    error instead of nil. *)
Lemma delete_not_found_is_returned :
  writes (syncRole Fixtures.convert Fixtures.noCloneError Fixtures.orphaned "a/r1")
         [Some Fixtures.notFound] = [DeleteAction "a" "r1"] /\
  IsNotFound (Delete "a" "r1" [Some Fixtures.notFound]).1 = true /\
  result (syncRole Fixtures.convert Fixtures.noCloneError Fixtures.orphaned "a/r1")
         [Some Fixtures.notFound] = Some Fixtures.notFound /\
  result (syncRole Fixtures.convert Fixtures.noCloneError Fixtures.orphaned "a/r1")
         [Some Fixtures.notFound] <> None.
Proof. repeat split. discriminate. Qed.

Lemma unparsable_key_witness :
  syncRole Fixtures.convert Fixtures.noCloneError Fixtures.converged "a/b/c"
           (fresh ([] : list (option error)))
  = (Some (PlainError "unexpected key format: a/b/c"), fresh []).
Proof.
  refine (unparsable_key_error_is_returned
            Fixtures.convert Fixtures.noCloneError Fixtures.converged "a/b/c"
            ([] : list (option error)) (PlainError "unexpected key format: a/b/c") _).
  reflexivity.
Defined.

(** The key "a/b/c" does not parse, and [syncRole] does return an error for
    it. *)
Lemma unparsable_key_is_an_error :
  (exists err, SplitMetaNamespaceKey "a/b/c" = inr err) /\
  result (syncRole Fixtures.convert Fixtures.noCloneError Fixtures.converged "a/b/c")
         ([] : list (option error)) <> None.
Proof. split; [eexists; reflexivity | discriminate]. Qed.

(** Scenario E issues two writes. *)
Lemma rejected_update_issues_two_writes :
  writes (syncRole Fixtures.convert Fixtures.noCloneError Fixtures.diverged "a/r1")
         [Some Fixtures.invalid]
    = [UpdateAction "a" (Fixtures.rbacR1 [Fixtures.R1; Fixtures.R2]);
       DeleteAction "a" "r1"] /\
  ~ List.length
      (writes (syncRole Fixtures.convert Fixtures.noCloneError Fixtures.diverged "a/r1")
              [Some Fixtures.invalid]) <= 1.
Proof. split; [reflexivity | vm_compute; lia]. Qed.

(** A delete notification carrying something that is no policy. *)
Lemma undecodable_delete_witness :
  exists st',
    DeleteFunc (OtherObj "Pod") (mkIngest Fixtures.converged []) = Panicked st' /\
    ctl st' = ctl (mkIngest Fixtures.converged []) /\
    notAPolicy ∈ handled st'.
Proof.
  refine (undecodable_delete_panics (OtherObj "Pod") (mkIngest Fixtures.converged []) _ _).
  - intros p Heq. discriminate Heq.
  - intros key p Heq. discriminate Heq.
Defined.

(** A tombstone holding something that is no policy, and a policy or a
    tombstone holding one, for comparison. *)
Example tombstone_without_policy_panics :
  DeleteFunc (DeletedFinalStateUnknownObj "a/default" (Some (OtherObj "Pod")))
             (mkIngest Fixtures.orphaned [])
  = Panicked (mkIngest Fixtures.orphaned [notAPolicy]).
Proof. reflexivity. Qed.

Example tombstone_with_policy_returns :
  DeleteFunc (DeletedFinalStateUnknownObj "a/default"
                (Some (PolicyObj (Fixtures.policyA []))))
             (mkIngest Fixtures.orphaned [])
  = Returned (mkIngest Fixtures.orphaned []).
Proof. reflexivity. Qed.

(** Scenarios B and D of the specification. *)
Example scenario_B :
  syncRole Fixtures.convert Fixtures.noCloneError Fixtures.converged "a/r1"
           (fresh ([] : list (option error))) = (None, fresh []).
Proof. reflexivity. Qed.

Example scenario_D :
  syncRole Fixtures.convert Fixtures.noCloneError Fixtures.diverged "a/r1"
           (fresh ([] : list (option error)))
  = (None, mkRecorder [] [UpdateAction "a" (Fixtures.rbacR1 [Fixtures.R1; Fixtures.R2])]).
Proof. reflexivity. Qed.

(** * Further properties of [syncRole] *)

(** X1. A failure of the RBAC lookup other than NotFound ends the
    invocation at once: the error is returned, nothing is written, and the
    origin lister plays no part (lines 64-67). *)
Theorem rbac_lookup_failure_is_returned
  (convert : authorizationapi.Role -> rbac.Role + error)
  (cloner : rbac.Role -> option error)
  {S : Type} `{client : RolesGetter S}
  (c : OriginRoleToRBACRoleController) (key namespace name : string) (s : S)
  (err : error) :
  SplitMetaNamespaceKey key = inl (namespace, name) ->
  rbacLister c namespace name = inr err ->
  IsNotFound (Some err) = false ->
  forall (ix : Indexer)
         (lister : Indexer -> string -> string -> authorizationapi.Role + error),
    syncRole convert cloner (mkController (rbacLister c) ix lister (queue c)) key (fresh s)
    = (Some err, fresh s).
Proof.
  intros Hkey Hr Hnf ix lister. unfold syncRole. rewrite Hkey.
  cbn [rbacLister]. rewrite Hr. cbn [errOf]. rewrite Hnf. reflexivity.
Qed.

(** X2. When the RBAC lookup has passed, a failure of the origin lookup
    other than NotFound is returned and nothing is written, whether the
    RBAC role exists or not (lines 68-71). *)
Theorem origin_lookup_failure_is_returned
  (convert : authorizationapi.Role -> rbac.Role + error)
  (cloner : rbac.Role -> option error)
  {S : Type} `{client : RolesGetter S}
  (c : OriginRoleToRBACRoleController) (key namespace name : string) (s : S)
  (err : error) :
  SplitMetaNamespaceKey key = inl (namespace, name) ->
  rbacLookupPasses c namespace name ->
  originLister c (originIndexer c) namespace name = inr err ->
  IsNotFound (Some err) = false ->
  syncRole convert cloner c key (fresh s) = (Some err, fresh s).
Proof.
  intros Hkey Hpass Ho Hnf. unfold syncRole. rewrite Hkey, Ho. cbn [errOf].
  assert (negb (IsNotFound (errOf (rbacLister c namespace name)))
          && bool_decide (errOf (rbacLister c namespace name) ≠ None) = false) as ->.
  { destruct (rbacLister c namespace name) as [|rbacErr] eqn:Hr; [reflexivity|].
    cbn [errOf]. apply IsNotFound_not_nil, Hpass, Hr. }
  rewrite Hnf. reflexivity.
Qed.

(** X3. When both lookups answer NotFound there is nothing to do: nil is
    returned and the client is not called (lines 73-76). *)
Theorem neither_role_exists_is_a_no_op
  (convert : authorizationapi.Role -> rbac.Role + error)
  (cloner : rbac.Role -> option error)
  {S : Type} `{client : RolesGetter S}
  (c : OriginRoleToRBACRoleController) (key namespace name : string) (s : S)
  (rbacErr originErr : error) :
  SplitMetaNamespaceKey key = inl (namespace, name) ->
  rbacLister c namespace name = inr rbacErr ->
  IsNotFound (Some rbacErr) = true ->
  originLister c (originIndexer c) namespace name = inr originErr ->
  IsNotFound (Some originErr) = true ->
  syncRole convert cloner c key (fresh s) = (None, fresh s).
Proof. intros. eapply sync_neither; eassumption. Qed.

Lemma stompIdentity_payload (equivalentRole rbacRole : rbac.Role) :
  samePayload (stompIdentity equivalentRole rbacRole) equivalentRole.
Proof. repeat split. Qed.


(** X4. When both roles exist and differ, and the update is not rejected as
    invalid (it succeeds, or fails in some other way, a conflict say),
    [syncRole] issues that one update and nothing else, and returns what
    the update returned.  The object written is the converted role in
    everything but the four identity fields (lines 101-119). *)
Theorem update_not_invalid_is_the_only_write
  (convert : authorizationapi.Role -> rbac.Role + error)
  (cloner : rbac.Role -> option error)
  {S : Type} `{client : RolesGetter S}
  (c : OriginRoleToRBACRoleController) (key namespace name : string) (s : S)
  (rbacRole : rbac.Role) (originRole : authorizationapi.Role)
  (convertedRole : rbac.Role) :
  SplitMetaNamespaceKey key = inl (namespace, name) ->
  rbacLister c namespace name = inl rbacRole ->
  originLister c (originIndexer c) namespace name = inl originRole ->
  convert originRole = inl convertedRole ->
  cloner convertedRole = None ->
  DeepEqual (stompIdentity convertedRole rbacRole) rbacRole = false ->
  IsInvalid (errOf (Update namespace (stompIdentity convertedRole rbacRole) s).1) = false ->
  exists obj,
    writes (syncRole convert cloner c key) s = [UpdateAction namespace obj] /\
    samePayload obj convertedRole /\
    result (syncRole convert cloner c key) s = errOf (Update namespace obj s).1 /\
    backend (syncRole convert cloner c key (fresh s)).2 = (Update namespace obj s).2.
Proof.
  intros Hkey Hr Ho Hc Hd Hne Hinv.
  exists (stompIdentity convertedRole rbacRole). unfold writes, result.
  rewrite (sync_compare convert cloner c key namespace name Hkey (fresh s)
             rbacRole originRole convertedRole Hr Ho Hc Hd).
  cbn zeta. rewrite Hne, bind_run. cbn [Update recording].
  rewrite record_run. cbn [fst snd backend actions fresh app].
  rewrite Hinv. cbn. split; [reflexivity|]. split; [|done].
  apply stompIdentity_payload.
Qed.


Section WhatIsWritten.

Variable convert : authorizationapi.Role -> rbac.Role + error.
Variable cloner : rbac.Role -> option error.
Context {S : Type} `{client : RolesGetter S}.
Variables (c : OriginRoleToRBACRoleController) (key : string) (s : S).

(** X6. Every write of an invocation is addressed to the namespace the key
    parses to, and a delete names the name the key parses to; no other
    object of the derived store is touched (lines 80, 97, 113, 117). *)
Theorem writes_are_addressed_to_the_key (a : Action) :
  a ∈ writes (syncRole convert cloner c key) s ->
  exists namespace name,
    SplitMetaNamespaceKey key = inl (namespace, name) /\
    actionNamespace a = namespace /\
    (forall ns n, a = DeleteAction ns n -> n = name).
Proof.
  unfold writes. intros Hin.
  pose proof (syncRole_path convert cloner c key s) as Hpath. cbn zeta in Hpath.
  destruct Hpath; set_unfold in Hin; try tauto.
  all: repeat match goal with
              | H : _ \/ _ |- _ => destruct H as [H|H]
              end; try tauto; subst a.
  all: eexists _, _; split; [eassumption|]; split; [reflexivity|];
    intros ns n Heq; try discriminate Heq; by injection Heq as _ <-.
Qed.

(** X7. A create is issued only for a role the RBAC lister reported
    NotFound, it is the only write of the invocation, and the object created
    has an empty resource version (lines 94-99). *)
Theorem create_only_when_rbac_role_absent (ns : string) (obj : rbac.Role) :
  CreateAction ns obj ∈ writes (syncRole convert cloner c key) s ->
  exists namespace name rbacErr,
    SplitMetaNamespaceKey key = inl (namespace, name) /\
    rbacLister c namespace name = inr rbacErr /\
    IsNotFound (Some rbacErr) = true /\
    ResourceVersion (rbac.Meta obj) = "" /\
    writes (syncRole convert cloner c key) s = [CreateAction ns obj].
Proof.
  unfold writes. intros Hin.
  pose proof (syncRole_path convert cloner c key s) as Hpath. cbn zeta in Hpath.
  destruct Hpath; set_unfold in Hin; try tauto.
  all: repeat match goal with
              | H : _ \/ _ |- _ => destruct H as [H|H]
              end; try tauto; try discriminate.
  injection Hin as -> ->. subst. eexists _, _, _.
  split; [eassumption|]. split; [eassumption|]. split; [assumption|].
  split; reflexivity.
Qed.

(** X8. A delete is issued only for a role the RBAC lister returned, and
    only in two situations: the origin role is absent and the delete is the
    only write, or the delete follows an update that was rejected as
    invalid.  A role whose origin counterpart exists is never deleted
    otherwise (lines 78-81 and 116-118). *)
Theorem delete_only_of_a_listed_role (ns n : string) :
  DeleteAction ns n ∈ writes (syncRole convert cloner c key) s ->
  SplitMetaNamespaceKey key = inl (ns, n) /\
  (exists rbacRole, rbacLister c ns n = inl rbacRole) /\
  ((exists originErr,
       originLister c (originIndexer c) ns n = inr originErr /\
       IsNotFound (Some originErr) = true /\
       writes (syncRole convert cloner c key) s = [DeleteAction ns n])
   \/
   (exists obj,
       writes (syncRole convert cloner c key) s
         = [UpdateAction ns obj; DeleteAction ns n] /\
       IsInvalid (result (syncRole convert cloner c key) s) = true)).
Proof.
  unfold writes, result. intros Hin.
  pose proof (syncRole_path convert cloner c key s) as Hpath. cbn zeta in Hpath.
  destruct Hpath; set_unfold in Hin; try tauto.
  all: repeat match goal with
              | H : _ \/ _ |- _ => destruct H as [H|H]
              end; try tauto; try discriminate.
  - injection Hin as -> ->. split; [assumption|]. split; [eauto|]. left. eauto.
  - injection Hin as -> ->. split; [assumption|]. split; [eauto|]. right. eauto.
Qed.

End WhatIsWritten.

(** X9. A controller as [NewOriginToRBACRoleController] builds it has an
    empty indexer.  Until a policy notification has filled it, reconciling
    the key of any RBAC role the lister knows takes the orphan branch: one
    delete of that role, whose answer is returned (lines 35-40 with lines
    68-81). *)
Theorem new_controller_deletes_listed_rbac_role
  (convert : authorizationapi.Role -> rbac.Role + error)
  (cloner : rbac.Role -> option error)
  {S : Type} `{client : RolesGetter S}
  (rbacRoleLister : string -> string -> rbac.Role + error)
  (key namespace name : string) (s : S) (rbacRole : rbac.Role) :
  SplitMetaNamespaceKey key = inl (namespace, name) ->
  rbacRoleLister namespace name = inl rbacRole ->
  writes (syncRole convert cloner (NewOriginToRBACRoleController rbacRoleLister) key) s
    = [DeleteAction namespace name] /\
  result (syncRole convert cloner (NewOriginToRBACRoleController rbacRoleLister) key) s
    = (Delete namespace name s).1.
Proof.
  intros Hkey Hr. unfold writes, result.
  rewrite (sync_orphan convert cloner (NewOriginToRBACRoleController rbacRoleLister)
             key namespace name Hkey (fresh s) rbacRole (NewNotFound name) Hr);
    [|reflexivity..].
  cbn [Delete recording]. rewrite record_run. done.
Qed.

(** * Further properties of the event handlers *)

(** ** Keys *)

Lemma Split_noSlash (s : string) : noSlash s = true -> Split s = [s].
Proof.
  induction s as [|ch s IH]; [reflexivity|]. cbn [noSlash Split].
  intros [Hch Hs]%andb_prop. apply negb_true_iff in Hch. rewrite Hch, (IH Hs).
  reflexivity.
Qed.

Lemma Split_slash (a b : string) :
  noSlash a = true -> Split (a ++ "/" ++ b) = a :: Split b.
Proof.
  induction a as [|ch a IH]; [reflexivity|]. cbn [noSlash].
  intros [Hch Ha]%andb_prop. apply negb_true_iff in Hch.
  change (String ch a ++ "/" ++ b) with (String ch (a ++ "/" ++ b)).
  cbn [Split]. rewrite Hch, (IH Ha). reflexivity.
Qed.

(** The key of a namespaced role parses back to its namespace and name. *)
Lemma roleKey_parses (r : authorizationapi.Role) :
  Namespace (authorizationapi.Meta r) <> "" ->
  noSlash (Namespace (authorizationapi.Meta r)) = true ->
  noSlash (Name (authorizationapi.Meta r)) = true ->
  roleKey r = Namespace (authorizationapi.Meta r) ++ "/" ++ Name (authorizationapi.Meta r) /\
  SplitMetaNamespaceKey (roleKey r)
    = inl (Namespace (authorizationapi.Meta r), Name (authorizationapi.Meta r)).
Proof.
  intros Hns Hnons Hnoname. unfold roleKey, MetaNamespaceKeyFunc.
  rewrite bool_decide_eq_false_2 by exact Hns. split; [reflexivity|].
  unfold SplitMetaNamespaceKey. rewrite (Split_slash _ _ Hnons), (Split_noSlash _ Hnoname).
  reflexivity.
Qed.

(** ** What ingesting the roles of a policy does to the controller *)

Lemma ingestRoles_unfold (roles : list authorizationapi.Role) (st : Ingest) :
  foldl ingestRole st roles
  = mkIngest
      (mkController (rbacLister (ctl st))
         (foldl (fun ix r => Indexer_Add r ix) (originIndexer (ctl st)) roles)
         (originLister (ctl st))
         (foldl (fun q r => queue_Add (roleKey r) q) (queue (ctl st)) roles))
      (handled st).
Proof.
  revert st. induction roles as [|r roles IH]; intros st; cbn [foldl].
  - destruct st as [[] ?]. reflexivity.
  - rewrite IH. reflexivity.
Qed.

Lemma foldl_add_other (roles : list authorizationapi.Role) (ix : Indexer) (k : string) :
  (forall r, r ∈ roles -> roleKey r <> k) ->
  foldl (fun ix r => Indexer_Add r ix) ix roles !! k = ix !! k.
Proof.
  revert ix. induction roles as [|r roles IH]; intros ix Hother; cbn [foldl];
    [reflexivity|].
  rewrite IH by (intros r' Hr'; apply Hother; set_solver).
  unfold Indexer_Add. apply lookup_insert_ne. apply Hother. set_solver.
Qed.

Lemma foldl_add_last (before after : list authorizationapi.Role)
  (r : authorizationapi.Role) (ix : Indexer) :
  (forall r', r' ∈ after -> roleKey r' <> roleKey r) ->
  foldl (fun ix r => Indexer_Add r ix) ix (before ++ r :: after) !! roleKey r = Some r.
Proof.
  intros Hafter. rewrite foldl_app. cbn [foldl].
  rewrite (foldl_add_other after _ _ Hafter). unfold Indexer_Add.
  apply lookup_insert_eq.
Qed.

(** For each key, either some role of the list decides what is filed under
    it, whatever was there, or the list leaves the key alone. *)
Lemma foldl_add_cases (roles : list authorizationapi.Role) (k : string) :
  (exists r, forall ix : Indexer,
        foldl (fun ix r => Indexer_Add r ix) ix roles !! k = Some r)
  \/ (forall ix : Indexer, foldl (fun ix r => Indexer_Add r ix) ix roles !! k = ix !! k).
Proof.
  induction roles as [|r roles [[r' Hr']|IH]]; cbn [foldl].
  - right. reflexivity.
  - left. exists r'. intros ix. apply Hr'.
  - destruct (decide (roleKey r = k)) as [Heq|Hne].
    + left. exists r. intros ix. rewrite IH. unfold Indexer_Add.
      fold (roleKey r). rewrite Heq. apply lookup_insert_eq.
    + right. intros ix. rewrite IH. unfold Indexer_Add. by apply lookup_insert_ne.
Qed.


Lemma queue_Add_elem (k key : string) (q : list string) :
  k ∈ queue_Add key q <-> k = key \/ k ∈ q.
Proof.
  unfold queue_Add. destruct (decide (key ∈ q)) as [Hin|Hnin].
  - rewrite bool_decide_eq_true_2 by done. split; [by right | by intros [->|?]].
  - rewrite bool_decide_eq_false_2 by done.
    rewrite elem_of_app, list_elem_of_singleton. tauto.
Qed.

Lemma foldl_queue_keeps (roles : list authorizationapi.Role) (q : list string) (k : string) :
  k ∈ q -> k ∈ foldl (fun q r => queue_Add (roleKey r) q) q roles.
Proof.
  revert q. induction roles as [|r roles IH]; intros q Hk; cbn [foldl]; [exact Hk|].
  apply IH, queue_Add_elem. by right.
Qed.

Lemma foldl_queue_has (roles : list authorizationapi.Role) (q : list string)
  (r : authorizationapi.Role) :
  r ∈ roles -> roleKey r ∈ foldl (fun q r => queue_Add (roleKey r) q) q roles.
Proof.
  revert q. induction roles as [|r' roles IH]; intros q Hr; cbn [foldl].
  - by apply elem_of_nil in Hr.
  - apply elem_of_cons in Hr as [->|Hr].
    + apply foldl_queue_keeps, queue_Add_elem. by left.
    + by apply IH.
Qed.


(** ** The handlers *)

(** X10. [AddFunc] and [UpdateFunc] on a policy return, and afterwards every
    role of the policy is in the indexer under its key and that key is
    pending in the queue.  A role that no later role of the policy shares
    its key with is the one filed.  Keys that were pending stay pending, no
    error is reported and the listers are not touched (lines 124-147). *)
Theorem policy_roles_are_filed_and_enqueued
  (old : Object) (p : authorizationapi.Policy) (st : Ingest)
  (before after : list authorizationapi.Role) (r : authorizationapi.Role) :
  authorizationapi.Roles p = (before ++ r :: after)%list ->
  (forall r', r' ∈ after -> roleKey r' <> roleKey r) ->
  exists st',
    AddFunc (PolicyObj p) st = Returned st' /\
    UpdateFunc old (PolicyObj p) st = Returned st' /\
    originIndexer (ctl st') !! roleKey r = Some r /\
    (forall r', r' ∈ authorizationapi.Roles p ->
                is_Some (originIndexer (ctl st') !! roleKey r') /\
                roleKey r' ∈ queue (ctl st')) /\
    (forall k, k ∈ queue (ctl st) -> k ∈ queue (ctl st')) /\
    handled st' = handled st /\
    rbacLister (ctl st') = rbacLister (ctl st) /\
    originLister (ctl st') = originLister (ctl st).
Proof.
  intros Hroles Hafter. exists (ingestRoles p st).
  split; [reflexivity|]. split; [reflexivity|].
  unfold ingestRoles. rewrite ingestRoles_unfold. cbn [ctl handled originIndexer queue
    rbacLister originLister].
  split; [rewrite Hroles; by apply foldl_add_last|].
  split; [|split; [intros k; apply foldl_queue_keeps|done]].
  intros r' Hr'. split; [|by apply foldl_queue_has].
  destruct (foldl_add_cases (authorizationapi.Roles p) (roleKey r')) as [[r0 Hr0]|Hnone].
  - rewrite Hr0. by eexists.
  - exfalso. apply list_elem_of_split in Hr' as (l1 & l2 & Hsplit).
    specialize (Hnone ∅). rewrite lookup_empty, Hsplit, foldl_app in Hnone.
    cbn [foldl] in Hnone.
    destruct (foldl_add_cases l2 (roleKey r')) as [[r0 Hr0]|Hl2].
    + rewrite Hr0 in Hnone. discriminate.
    + rewrite Hl2 in Hnone. unfold Indexer_Add in Hnone. fold (roleKey r') in Hnone.
      rewrite lookup_insert_eq in Hnone. discriminate.
Qed.


(** X12. From construction to the first write: on a new controller,
    [AddFunc] for a policy enqueues the key of each of its roles, and
    [syncRole] for the key of a namespaced role, with no RBAC role yet,
    creates the conversion of exactly that role, resource version emptied
    (lines 34-56, 124-135 and 58-99). *)
Theorem added_role_is_created
  (convert : authorizationapi.Role -> rbac.Role + error)
  (cloner : rbac.Role -> option error)
  {S : Type} `{client : RolesGetter S}
  (rbacRoleLister : string -> string -> rbac.Role + error)
  (p : authorizationapi.Policy) (before after : list authorizationapi.Role)
  (r : authorizationapi.Role) (s : S) (rbacErr : error) (convertedRole : rbac.Role) :
  authorizationapi.Roles p = (before ++ r :: after)%list ->
  (forall r', r' ∈ after -> roleKey r' <> roleKey r) ->
  Namespace (authorizationapi.Meta r) <> "" ->
  noSlash (Namespace (authorizationapi.Meta r)) = true ->
  noSlash (Name (authorizationapi.Meta r)) = true ->
  rbacRoleLister (Namespace (authorizationapi.Meta r)) (Name (authorizationapi.Meta r))
    = inr rbacErr ->
  IsNotFound (Some rbacErr) = true ->
  convert r = inl convertedRole ->
  cloner convertedRole = None ->
  exists st',
    AddFunc (PolicyObj p) (mkIngest (NewOriginToRBACRoleController rbacRoleLister) [])
      = Returned st' /\
    roleKey r ∈ queue (ctl st') /\
    writes (syncRole convert cloner (ctl st') (roleKey r)) s
      = [CreateAction (Namespace (authorizationapi.Meta r))
           (withMeta (setResourceVersion "") convertedRole)] /\
    result (syncRole convert cloner (ctl st') (roleKey r)) s
      = errOf (Create (Namespace (authorizationapi.Meta r))
                 (withMeta (setResourceVersion "") convertedRole) s).1.
Proof.
  intros Hroles Hafter Hns Hnons Hnoname Hr Hnf Hc Hd.
  destruct (roleKey_parses r Hns Hnons Hnoname) as [Hkeyeq Hkey].
  exists (ingestRoles p (mkIngest (NewOriginToRBACRoleController rbacRoleLister) [])).
  split; [reflexivity|]. unfold ingestRoles. rewrite ingestRoles_unfold.
  cbn [ctl handled originIndexer queue rbacLister originLister
       NewOriginToRBACRoleController].
  split; [apply foldl_queue_has; rewrite Hroles; set_solver|].
  unfold writes, result.
  match goal with
  | |- context [syncRole _ _ ?c _] =>
      rewrite (sync_create convert cloner c (roleKey r) _ _ Hkey (fresh s)
                 rbacErr r convertedRole Hr Hnf); [| |exact Hc|exact Hd]
  end.
  - rewrite bind_run. cbn [Create recording]. rewrite record_run. done.
  - cbn [originLister originIndexer]. unfold NewRoleLister.
    rewrite <- Hkeyeq, Hroles, (foldl_add_last before after r ∅ Hafter). reflexivity.
Qed.

(** X13. Which notifications the handlers process.  [AddFunc] and
    [UpdateFunc] return exactly on a policy ([UpdateFunc] never looks at the
    old object); [DeleteFunc] returns exactly on a policy or on a tombstone
    whose object is a policy, and treats the two alike.  In each case the
    state left is the one obtained by ingesting the roles of that policy
    (lines 124-170). *)
Theorem handlers_return_exactly_on_policies (old obj : Object) (st st' : Ingest) :
  (AddFunc obj st = Returned st' <->
     exists p, obj = PolicyObj p /\ st' = ingestRoles p st) /\
  (UpdateFunc old obj st = Returned st' <->
     exists p, obj = PolicyObj p /\ st' = ingestRoles p st) /\
  (DeleteFunc obj st = Returned st' <->
     exists p,
       (obj = PolicyObj p \/
        exists key, obj = DeletedFinalStateUnknownObj key (Some (PolicyObj p))) /\
       st' = ingestRoles p st).
Proof.
  split; [|split]; split.
  - destruct obj as [p| |]; try discriminate. intros [= <-]. eauto.
  - intros (p & -> & ->). reflexivity.
  - destruct obj as [p| |]; try discriminate. intros [= <-]. eauto.
  - intros (p & -> & ->). reflexivity.
  - destruct obj as [p|key [[p| |]|]|]; try discriminate; intros [= <-]; eauto 6.
  - intros (p & [->|[key ->]] & ->); reflexivity.
Qed.

(** * The further properties at concrete inputs *)

Lemma rbac_lookup_failure_witness :
  syncRole Fixtures.convert Fixtures.noCloneError
    (mkController Fixtures.failing ∅ NewRoleLister []) "a/r1"
    (fresh ([] : list (option error)))
  = (Some (PlainError "cache unavailable"), fresh []).
Proof.
  refine (rbac_lookup_failure_is_returned Fixtures.convert Fixtures.noCloneError
            (Fixtures.controllerWith Fixtures.failing [Fixtures.originR1 [Fixtures.R1]])
            "a/r1" "a" "r1" ([] : list (option error)) (PlainError "cache unavailable")
            _ _ _ ∅ NewRoleLister); reflexivity.
Defined.

Lemma origin_lookup_failure_witness :
  syncRole Fixtures.convert Fixtures.noCloneError
    (mkController (Fixtures.onlyR1 (Fixtures.rbacR1 [Fixtures.R1])) ∅
       (fun _ => Fixtures.failing) []) "a/r1"
    (fresh ([] : list (option error)))
  = (Some (PlainError "cache unavailable"), fresh []).
Proof.
  refine (origin_lookup_failure_is_returned Fixtures.convert Fixtures.noCloneError
            (mkController (Fixtures.onlyR1 (Fixtures.rbacR1 [Fixtures.R1])) ∅
               (fun _ => Fixtures.failing) [])
            "a/r1" "a" "r1" ([] : list (option error)) (PlainError "cache unavailable")
            _ _ _ _); try reflexivity.
  intros err Hfound. vm_compute in Hfound. discriminate Hfound.
Defined.

Lemma neither_role_exists_witness :
  syncRole Fixtures.convert Fixtures.noCloneError
    (Fixtures.controllerWith Fixtures.nothing []) "a/r1"
    (fresh [Some Fixtures.unavailable])
  = (None, fresh [Some Fixtures.unavailable]).
Proof.
  refine (neither_role_exists_is_a_no_op Fixtures.convert Fixtures.noCloneError
            (Fixtures.controllerWith Fixtures.nothing []) "a/r1" "a" "r1"
            [Some Fixtures.unavailable] Fixtures.notFound Fixtures.notFound
            _ _ _ _ _); reflexivity.
Defined.

(** Scenario D once more, and the same update answered with an error that
    is not Invalid. *)
Lemma update_not_invalid_witness :
  exists obj,
    writes (syncRole Fixtures.convert Fixtures.noCloneError Fixtures.diverged "a/r1")
           [Some Fixtures.unavailable] = [UpdateAction "a" obj] /\
    samePayload obj (rbac.mkRole (Fixtures.meta "a" "r1" "origin-uid" "3" 100)
                       (map Fixtures.convertRule [Fixtures.R1; Fixtures.R2])) /\
    result (syncRole Fixtures.convert Fixtures.noCloneError Fixtures.diverged "a/r1")
           [Some Fixtures.unavailable]
      = errOf (Update "a" obj [Some Fixtures.unavailable]).1 /\
    backend (syncRole Fixtures.convert Fixtures.noCloneError Fixtures.diverged "a/r1"
               (fresh [Some Fixtures.unavailable])).2
      = (Update "a" obj [Some Fixtures.unavailable]).2.
Proof.
  refine (update_not_invalid_is_the_only_write
            Fixtures.convert Fixtures.noCloneError Fixtures.diverged "a/r1" "a" "r1"
            [Some Fixtures.unavailable] (Fixtures.rbacR1 [Fixtures.R1])
            (Fixtures.originR1 [Fixtures.R1; Fixtures.R2])
            (rbac.mkRole (Fixtures.meta "a" "r1" "origin-uid" "3" 100)
               (map Fixtures.convertRule [Fixtures.R1; Fixtures.R2]))
            _ _ _ _ _ _ _); reflexivity.
Defined.

Example update_conflict_is_returned :
  syncRole Fixtures.convert Fixtures.noCloneError Fixtures.diverged "a/r1"
           (fresh [Some Fixtures.unavailable])
  = (Some Fixtures.unavailable,
     mkRecorder [] [UpdateAction "a" (Fixtures.rbacR1 [Fixtures.R1; Fixtures.R2])]).
Proof. reflexivity. Qed.


Lemma writes_addressed_witness :
  exists namespace name,
    SplitMetaNamespaceKey "a/r1" = inl (namespace, name) /\
    actionNamespace (DeleteAction "a" "r1") = namespace /\
    (forall ns n, DeleteAction "a" "r1" = DeleteAction ns n -> n = name).
Proof.
  refine (writes_are_addressed_to_the_key
            Fixtures.convert Fixtures.noCloneError Fixtures.diverged "a/r1"
            [Some Fixtures.invalid] (DeleteAction "a" "r1") _).
  vm_compute. constructor. constructor.
Defined.

Lemma create_only_witness :
  exists namespace name rbacErr,
    SplitMetaNamespaceKey "a/r1" = inl (namespace, name) /\
    rbacLister Fixtures.missing namespace name = inr rbacErr /\
    IsNotFound (Some rbacErr) = true /\
    ResourceVersion (rbac.Meta (rbac.mkRole (Fixtures.meta "a" "r1" "origin-uid" "" 100)
                                  [Fixtures.convertRule Fixtures.R1])) = "" /\
    writes (syncRole Fixtures.convert Fixtures.noCloneError Fixtures.missing "a/r1")
           ([] : list (option error))
      = [CreateAction "a" (rbac.mkRole (Fixtures.meta "a" "r1" "origin-uid" "" 100)
                             [Fixtures.convertRule Fixtures.R1])].
Proof.
  refine (create_only_when_rbac_role_absent
            Fixtures.convert Fixtures.noCloneError Fixtures.missing "a/r1"
            ([] : list (option error)) "a"
            (rbac.mkRole (Fixtures.meta "a" "r1" "origin-uid" "" 100)
               [Fixtures.convertRule Fixtures.R1]) _).
  vm_compute. constructor.
Defined.

Lemma delete_only_witness :
  SplitMetaNamespaceKey "a/r1" = inl ("a", "r1") /\
  (exists rbacRole, rbacLister Fixtures.orphaned "a" "r1" = inl rbacRole) /\
  ((exists originErr,
       originLister Fixtures.orphaned (originIndexer Fixtures.orphaned) "a" "r1"
         = inr originErr /\
       IsNotFound (Some originErr) = true /\
       writes (syncRole Fixtures.convert Fixtures.noCloneError Fixtures.orphaned "a/r1")
              ([] : list (option error)) = [DeleteAction "a" "r1"])
   \/
   (exists obj,
       writes (syncRole Fixtures.convert Fixtures.noCloneError Fixtures.orphaned "a/r1")
              ([] : list (option error))
         = [UpdateAction "a" obj; DeleteAction "a" "r1"] /\
       IsInvalid (result (syncRole Fixtures.convert Fixtures.noCloneError
                            Fixtures.orphaned "a/r1") ([] : list (option error))) = true)).
Proof.
  refine (delete_only_of_a_listed_role
            Fixtures.convert Fixtures.noCloneError Fixtures.orphaned "a/r1"
            ([] : list (option error)) "a" "r1" _).
  vm_compute. constructor.
Defined.

Lemma new_controller_witness :
  writes (syncRole Fixtures.convert Fixtures.noCloneError
            (NewOriginToRBACRoleController (Fixtures.onlyR1 (Fixtures.rbacR1 [Fixtures.R1])))
            "a/r1") ([] : list (option error))
    = [DeleteAction "a" "r1"] /\
  result (syncRole Fixtures.convert Fixtures.noCloneError
            (NewOriginToRBACRoleController (Fixtures.onlyR1 (Fixtures.rbacR1 [Fixtures.R1])))
            "a/r1") ([] : list (option error))
    = None.
Proof.
  refine (new_controller_deletes_listed_rbac_role
            Fixtures.convert Fixtures.noCloneError
            (Fixtures.onlyR1 (Fixtures.rbacR1 [Fixtures.R1])) "a/r1" "a" "r1"
            ([] : list (option error)) (Fixtures.rbacR1 [Fixtures.R1]) _ _); reflexivity.
Defined.

Lemma policy_roles_filed_witness :
  exists st',
    AddFunc (PolicyObj (Fixtures.policyA [Fixtures.originR1 [Fixtures.R1]]))
            (mkIngest (NewOriginToRBACRoleController Fixtures.nothing) [])
      = Returned st' /\
    UpdateFunc (OtherObj "Pod")
               (PolicyObj (Fixtures.policyA [Fixtures.originR1 [Fixtures.R1]]))
               (mkIngest (NewOriginToRBACRoleController Fixtures.nothing) [])
      = Returned st' /\
    originIndexer (ctl st') !! roleKey (Fixtures.originR1 [Fixtures.R1])
      = Some (Fixtures.originR1 [Fixtures.R1]) /\
    (forall r',
        r' ∈ authorizationapi.Roles (Fixtures.policyA [Fixtures.originR1 [Fixtures.R1]]) ->
        is_Some (originIndexer (ctl st') !! roleKey r') /\ roleKey r' ∈ queue (ctl st')) /\
    (forall k,
        k ∈ queue (ctl (mkIngest (NewOriginToRBACRoleController Fixtures.nothing) [])) ->
        k ∈ queue (ctl st')) /\
    handled st' = handled (mkIngest (NewOriginToRBACRoleController Fixtures.nothing) []) /\
    rbacLister (ctl st')
      = rbacLister (ctl (mkIngest (NewOriginToRBACRoleController Fixtures.nothing) [])) /\
    originLister (ctl st')
      = originLister (ctl (mkIngest (NewOriginToRBACRoleController Fixtures.nothing) [])).
Proof.
  refine (policy_roles_are_filed_and_enqueued (OtherObj "Pod")
            (Fixtures.policyA [Fixtures.originR1 [Fixtures.R1]])
            (mkIngest (NewOriginToRBACRoleController Fixtures.nothing) [])
            [] [] (Fixtures.originR1 [Fixtures.R1]) _ _).
  - reflexivity.
  - intros r' Hin. apply elem_of_nil in Hin. destruct Hin.
Defined.


Lemma added_role_is_created_witness :
  exists st',
    AddFunc (PolicyObj (Fixtures.policyA [Fixtures.originR1 [Fixtures.R1]]))
            (mkIngest (NewOriginToRBACRoleController Fixtures.nothing) [])
      = Returned st' /\
    roleKey (Fixtures.originR1 [Fixtures.R1]) ∈ queue (ctl st') /\
    writes (syncRole Fixtures.convert Fixtures.noCloneError (ctl st')
              (roleKey (Fixtures.originR1 [Fixtures.R1]))) ([] : list (option error))
      = [CreateAction "a"
           (withMeta (setResourceVersion "")
              (rbac.mkRole (Fixtures.meta "a" "r1" "origin-uid" "3" 100)
                 [Fixtures.convertRule Fixtures.R1]))] /\
    result (syncRole Fixtures.convert Fixtures.noCloneError (ctl st')
              (roleKey (Fixtures.originR1 [Fixtures.R1]))) ([] : list (option error))
      = errOf (Create "a"
                 (withMeta (setResourceVersion "")
                    (rbac.mkRole (Fixtures.meta "a" "r1" "origin-uid" "3" 100)
                       [Fixtures.convertRule Fixtures.R1]))
                 ([] : list (option error))).1.
Proof.
  refine (added_role_is_created Fixtures.convert Fixtures.noCloneError Fixtures.nothing
            (Fixtures.policyA [Fixtures.originR1 [Fixtures.R1]]) [] []
            (Fixtures.originR1 [Fixtures.R1]) ([] : list (option error))
            Fixtures.notFound
            (rbac.mkRole (Fixtures.meta "a" "r1" "origin-uid" "3" 100)
               [Fixtures.convertRule Fixtures.R1])
            _ _ _ _ _ _ _ _ _); try reflexivity.
  - intros r' Hin. apply elem_of_nil in Hin. destruct Hin.
  - discriminate.
Defined.

Lemma tombstone_is_processed_witness :
  DeleteFunc (DeletedFinalStateUnknownObj "a/default"
                (Some (PolicyObj (Fixtures.policyA [Fixtures.originR1 [Fixtures.R1]]))))
             (mkIngest (NewOriginToRBACRoleController Fixtures.nothing) [])
  = Returned (ingestRoles (Fixtures.policyA [Fixtures.originR1 [Fixtures.R1]])
                (mkIngest (NewOriginToRBACRoleController Fixtures.nothing) [])).
Proof.
  refine (proj2 (proj2 (proj2 (handlers_return_exactly_on_policies (OtherObj "Pod")
            (DeletedFinalStateUnknownObj "a/default"
               (Some (PolicyObj (Fixtures.policyA [Fixtures.originR1 [Fixtures.R1]]))))
            (mkIngest (NewOriginToRBACRoleController Fixtures.nothing) [])
            (ingestRoles (Fixtures.policyA [Fixtures.originR1 [Fixtures.R1]])
               (mkIngest (NewOriginToRBACRoleController Fixtures.nothing) []))))) _).
  exists (Fixtures.policyA [Fixtures.originR1 [Fixtures.R1]]).
  split; [right; exists "a/default"; reflexivity | reflexivity].
Defined.





(** An update notification for a/r1 with new rules replaces what is filed
    under "a/r1" and enqueues the key. *)
Example update_replaces_filed_role :
  UpdateFunc (PolicyObj (Fixtures.policyA [Fixtures.originR1 [Fixtures.R1]]))
             (PolicyObj (Fixtures.policyA [Fixtures.originR1 [Fixtures.R1; Fixtures.R2]]))
             (mkIngest Fixtures.converged [])
  = Returned (mkIngest (withQueue (fun _ => ["a/r1"]) Fixtures.diverged) []).
Proof. vm_compute. reflexivity. Qed.
